(** * bingogg: the room of [api/src/core/Room.ts]

    A shallow embedding of the [Room] class: the value the constructor gives
    its [board] field, the handlers it installs on the web socket server
    ([connection], [message], [close]) and the three [send*] methods.

    The message handler is JavaScript working on whatever [JSON.parse]
    returns, so decoded frames are kept as JSON values and the handler's
    property reads, element reads and exceptions are written out. *)

From Stdlib Require Import ZArith Lia Ascii String DecimalString DecimalZ.
From stdpp Require Import base list strings.

Local Open Scope string_scope.
Local Open Scope Z_scope.
Local Open Scope list_scope.
Local Set Warnings "-register-all".

(** ** JavaScript values *)

Module JS.

(** The values [JSON.parse] can build, and [undefined], which reading an
    absent property gives.  [JNum] carries the integer-valued numbers (the
    wire format's [row] and [col] are integers); [JObj] lists an object's own
    properties in the order of the text. *)
Inductive jsval : Type :=
  | JUndefined
  | JNull
  | JBool (b : bool)
  | JNum (z : Z)
  | JStr (s : string)
  | JArr (elems : list jsval)
  | JObj (props : list (string * jsval)).

Inductive error : Type :=
  | SyntaxError     (* JSON.parse on text that is not JSON *)
  | TypeError       (* a property read on undefined or null *)
  | InvalidToken.   (* raised by the identity resolver *)

(** [o[k]] for an own property, [undefined] when there is none;
    [JSON.parse] keeps the last of several members that share a key. *)
Definition own (k : string) (props : list (string * jsval)) : jsval :=
  match find (fun member => String.eqb (fst member) k) (rev props) with
  | Some (_, v) => v
  | None => JUndefined
  end.

(** [v.k] when it does not throw, for the property names the room reads
    ([action], [authToken], [payload], [row], [col], [message]): none of them
    is inherited from [Object], [Array], [String], [Number] or [Boolean], so
    only an object's own property can answer. *)
Definition prop (v : jsval) (k : string) : jsval :=
  match v with
  | JObj props => own k props
  | _ => JUndefined
  end.

Definition nullish (v : jsval) : bool :=
  match v with
  | JUndefined | JNull => true
  | _ => false
  end.

(** [v === undefined] *)
Definition is_undefined (v : jsval) : bool :=
  match v with
  | JUndefined => true
  | _ => false
  end.

Definition string_of_Z (z : Z) : string := NilZero.string_of_int (Z.to_int z).

Fixpoint join (sep : string) (parts : list string) : string :=
  match parts with
  | [] => EmptyString
  | [s] => s
  | s :: rest => s +:+ sep +:+ join sep rest
  end.

(** [String(v)], as a template literal and a computed property key apply it.
    An array is joined with commas, its [null] and [undefined] elements
    giving the empty string. *)
Fixpoint ToString (v : jsval) : string :=
  match v with
  | JUndefined => "undefined"
  | JNull => "null"
  | JBool true => "true"
  | JBool false => "false"
  | JNum z => string_of_Z z
  | JStr s => s
  | JArr elems =>
      join "," (map (fun e => if nullish e then EmptyString else ToString e) elems)
  | JObj _ => "[object Object]"
  end.

(** [arr[v]] on an array of length [len]: the key [String(v)] names element
    [i] when it is the decimal numeral of [i]; any other key names no
    element. *)
Definition array_index (len : nat) (v : jsval) : option nat :=
  find (fun i => String.eqb (string_of_Z (Z.of_nat i)) (ToString v)) (seq 0 len).

End JS.
Export JS.

(** ** Data model *)

(** [Cell], [Board] and [ServerMessage] of [types/ServerMessage]: a goal
    with the colors that marked it, in the order they were pushed. *)
Record Cell : Type := mkCell { goal : string; colors : list string }.

Abbreviation Board := (list (list Cell)).

(** What [verifyRoomToken] returns. *)
Record Identity : Type := mkIdentity { nickname : string; color : string }.

(** The objects the room hands to [JSON.stringify].  [message] of a chat is
    whatever value [sendChat] was called with; [row] and [col] of a cell
    update are the values the action carried, and its [cell] is
    [this.board.board[row][col]] as it is when the message is built, [None]
    for [undefined]. *)
Inductive ServerMessage : Type :=
  | chat (message : jsval)
  | cellUpdate (row col : jsval) (cell : option Cell)
  | syncBoard (board : Board).

Inductive ReadyState : Type := CONNECTING | OPEN | CLOSING | CLOSED.

Global Instance ReadyState_eq_dec : EqDecision ReadyState.
Proof. solve_decision. Defined.

(** A socket of [websocketServer.clients]. *)
Record WebSocket : Type := mkWebSocket { sock : nat; readyState : ReadyState }.

(** The room: its fields, the sockets of its server, and [wire], the calls
    to [send] made so far as (socket, message) pairs, oldest first. *)
Record Room : Type := mkRoom {
  name : string;
  game : string;
  password : string;
  slug : string;
  board : Board;
  clients : list WebSocket;
  wire : list (nat * ServerMessage)
}.

Definition with_board (b : Board) (rm : Room) : Room :=
  mkRoom (name rm) (game rm) (password rm) (slug rm) b (clients rm) (wire rm).

Definition with_clients (cs : list WebSocket) (rm : Room) : Room :=
  mkRoom (name rm) (game rm) (password rm) (slug rm) (board rm) cs (wire rm).

Definition with_wire (w : list (nat * ServerMessage)) (rm : Room) : Room :=
  mkRoom (name rm) (game rm) (password rm) (slug rm) (board rm) (clients rm) w.

(** [{ goal: g, colors: [] }] *)
Definition free (g : string) : Cell := mkCell g [].

(** The initializer of the [board] field. *)
Definition default_board : Board :=
  [ [ free "Collect 5 things"; free "Talk to 10 people"; free "A pointy device";
      free "Obtain a hammer"; free "YELL" ];
    [ free "10 Wells"; free "15 flames"; free "Beat the game";
      free "Die 10 times"; free "Beat 5-2" ];
    [ free "Beat 3-5"; free "Discover Persia"; free "Invent Religion";
      free "C O N Q U E S T";
      free "this is a really long goal name because sometimes these will exist and it needs to be tested against" ];
    [ free "Return to Madagascar"; free "Morph Ball"; free "500 HP";
      free "50 coins"; free "Have a civil war" ];
    [ free "Game over"; free "Kill 300 enemies"; free "Explosives";
      free "Compass"; free "Roads" ] ].

(** [new Room(name, game, slug)] *)
Definition new_Room (name game slug : string) : Room :=
  mkRoom name game "password" slug default_board [] [].

(** ** Statements that read and write the room, and may throw *)

Inductive Outcome (A : Type) : Type :=
  | Returned (a : A) (rm : Room)
  | Thrown (e : error) (rm : Room).
Arguments Returned {A} a rm.
Arguments Thrown {A} e rm.

Definition M (A : Type) : Type := Room -> Outcome A.

Definition ret {A} (a : A) : M A := fun rm => Returned a rm.
Definition throw {A} (e : error) : M A := fun rm => Thrown e rm.
Definition bind {A B} (m : M A) (k : A -> M B) : M B :=
  fun rm =>
    match m rm with
    | Returned a rm' => k a rm'
    | Thrown e rm' => Thrown e rm'
    end.
Definition get : M Room := fun rm => Returned rm rm.
Definition modify (f : Room -> Room) : M unit := fun rm => Returned tt (f rm).

Definition room_after {A} (o : Outcome A) : Room :=
  match o with
  | Returned _ rm => rm
  | Thrown _ rm => rm
  end.

(** [try { body } catch { return; }] *)
Definition try_catch_return (body : M unit) : M unit :=
  fun rm =>
    match body rm with
    | Returned a rm' => Returned a rm'
    | Thrown _ rm' => Returned tt rm'
    end.

Notation "'let!' x ':=' m 'in' k" := (bind m (fun x => k))
  (at level 10, x name, m at level 100, k at level 200).
Notation "'do!' m 'in' k" := (bind m (fun _ => k))
  (at level 10, m at level 100, k at level 200).

(** [v.k], which throws on [undefined] and [null]. *)
Definition getProp (v : jsval) (k : string) : M jsval :=
  if nullish v then throw TypeError else ret (prop v k).

(** ** Reading and writing the board *)

(** [arr[v]] on an array of the board: the element the key names, or [None]
    for [undefined].  Keys that are not element indices are taken to read
    [undefined]: the names an array inherits ([length], its methods) read
    values without cells, on which the handler's next read fails as it does
    on [undefined]. *)
Definition element {A} (arr : list A) (v : jsval) : option A :=
  match array_index (length arr) v with
  | Some i => arr !! i
  | None => None
  end.

(** [this.board.board[row][col]]: reading [[col]] of [undefined] throws. *)
Definition board_at (row col : jsval) : M (option Cell) :=
  let! rm := get in
  match element (board rm) row with
  | None => throw TypeError
  | Some cells => ret (element cells col)
  end.

(** [this.board.board[row][col].colors] *)
Definition colors_at (row col : jsval) : M (list string) :=
  let! cell := board_at row col in
  match cell with
  | None => throw TypeError
  | Some cell => ret (colors cell)
  end.

Definition set_colors (cs : list string) (cell : Cell) : Cell :=
  mkCell (goal cell) cs.

(** Replaces the colors of the cell [row], [col] name, when there is one. *)
Definition write_colors (row col : jsval) (cs : list string) (b : Board) : Board :=
  match array_index (length b) row with
  | None => b
  | Some r =>
      match b !! r with
      | None => b
      | Some cells =>
          match array_index (length cells) col with
          | None => b
          | Some c => alter (alter (set_colors cs) c) r b
          end
      end
  end.

(** [this.board.board[row][col].colors.push(x)] *)
Definition push_color (row col : jsval) (x : string) : M unit :=
  let! cs := colors_at row col in
  modify (fun rm => with_board (write_colors row col (cs ++ [x]) (board rm)) rm).

(** [this.board.board[row][col].colors = rhs]: the cell on the left is read
    first, then the right-hand side is evaluated, then the value is stored. *)
Definition assign_colors (row col : jsval) (rhs : M (list string)) : M unit :=
  let! target := board_at row col in
  let! cs := rhs in
  match target with
  | None => throw TypeError
  | Some _ => modify (fun rm => with_board (write_colors row col cs (board rm)) rm)
  end.

(** The cell the handler finds under [row] and [col], if any. *)
Definition cell_of (b : Board) (row col : jsval) : option Cell :=
  match element b row with
  | Some cells => element cells col
  | None => None
  end.

(** The cell at the integers [r], [c]: there is one exactly when they are
    within the grid. *)
Definition cell_at (b : Board) (r c : Z) : option Cell :=
  if (0 <=? r) && (0 <=? c)
  then match b !! Z.to_nat r with
       | Some cells => cells !! Z.to_nat c
       | None => None
       end
  else None.

Definition boardHeight : Z := Z.of_nat (length default_board).
Definition boardWidth : Z := Z.of_nat (length (hd [] default_board)).

(** The goals are those of the constructor, so the grid is 5 by 5. *)
Definition goals_fixed (b : Board) : Prop :=
  map (map goal) b = map (map goal) default_board.

(** No cell holds a color twice. *)
Definition marks_unique (b : Board) : Prop :=
  Forall (Forall (fun cell => NoDup (colors cell))) b.

(** ** Sending *)

Definition is_open (client : WebSocket) : bool :=
  bool_decide (readyState client = OPEN).

(** The sends of one [sendServerMessage]: every client whose [readyState] is
    [OPEN], in the order of [clients]. *)
Definition broadcast (message : ServerMessage) (cs : list WebSocket)
  : list (nat * ServerMessage) :=
  map (fun client => (sock client, message)) (List.filter is_open cs).

Definition sendServerMessage (message : ServerMessage) : M unit :=
  modify (fun rm => with_wire (wire rm ++ broadcast message (clients rm)) rm).

Definition sendChat (message : jsval) : M unit :=
  sendServerMessage (chat message).

Definition sendCellUpdate (row col : jsval) : M unit :=
  let! cell := board_at row col in
  sendServerMessage (cellUpdate row col cell).

(** [ws.send(message)] *)
Definition ws_send (ws : nat) (message : ServerMessage) : M unit :=
  modify (fun rm => with_wire (wire rm ++ [(ws, message)]) rm).

Definition closing (ws : nat) (client : WebSocket) : WebSocket :=
  if (sock client =? ws)%nat && is_open client
  then mkWebSocket (sock client) CLOSING
  else client.

(** [ws.close()]: an open socket starts its closing handshake. *)
Definition ws_close (ws : nat) : M unit :=
  modify (fun rm => with_clients (map (closing ws) (clients rm)) rm).

(** ** The handlers the constructor installs *)

(** The frame a socket delivers: the text [message.toString()] gives. *)
Definition RawData : Type := string.

(** [!!message]: the frame is a [Buffer] (the handler calls [toString] on
    it), an object, and every object is truthy. *)
Definition truthy (message : RawData) : bool := true.

Module Handlers.
Section WithRuntime.

(** [JSON.parse] of the runtime: [None] when it throws [SyntaxError]. *)
Variable JSON_parse : string -> option jsval.

(** Modelled from the spec: [verifyRoomToken] of [auth/RoomAuth], which is
    not among the sources.  "resolve(token) -> Identity, fails with
    InvalidToken when the token cannot be verified or decoded": [None] is
    that failure, an exception. *)
Variable verifyRoomToken : jsval -> option Identity.

Definition parse (message : RawData) : M jsval :=
  match JSON_parse message with
  | Some v => ret v
  | None => throw SyntaxError
  end.

Definition verify (token : jsval) : M Identity :=
  match verifyRoomToken token with
  | Some identity => ret identity
  | None => throw InvalidToken
  end.

Definition case_join (ws : nat) (identity : Identity) : M unit :=
  let! rm := get in
  do! ws_send ws (syncBoard (board rm)) in
  sendChat (JStr (nickname identity +:+ " has joined.")).

Definition case_leave (ws : nat) (identity : Identity) : M unit :=
  do! sendChat (JStr (nickname identity +:+ " has left.")) in
  ws_close ws.

Definition case_mark (action : jsval) (identity : Identity) : M unit :=
  let! payload := getProp action "payload" in
  let! row := getProp payload "row" in
  let! col := getProp payload "col" in
  if is_undefined row || is_undefined col then ret tt else
  let! marked := colors_at row col in
  if bool_decide (color identity ∈ marked) then ret tt else
  do! push_color row col (color identity) in
  do! sendCellUpdate row col in
  sendChat (JStr (nickname identity +:+ " is marking (" +:+ ToString row
                    +:+ "," +:+ ToString col +:+ ")")).

Definition case_unmark (action : jsval) (identity : Identity) : M unit :=
  let! payload := getProp action "payload" in
  let! unRow := getProp payload "row" in
  let! unCol := getProp payload "col" in
  if is_undefined unRow || is_undefined unCol then ret tt else
  do! assign_colors unRow unCol
        (let! marked := colors_at unRow unCol in
         ret (filter (fun color' => color' ≠ color identity) marked)) in
  do! sendCellUpdate unRow unCol in
  sendChat (JStr (nickname identity +:+ " is unmarking (" +:+ ToString unRow
                    +:+ "," +:+ ToString unCol +:+ ")")).

Definition case_chat (message : RawData) (action : jsval) : M unit :=
  let! payload := getProp action "payload" in
  let! chatMessage := getProp payload "message" in
  if negb (truthy message) then ret tt else
  sendChat chatMessage.

(** The body of the [try]. *)
Definition dispatch (ws : nat) (message : RawData) (action : jsval) : M unit :=
  let! token := getProp action "authToken" in
  let! identity := verify token in
  let! kind := getProp action "action" in
  match kind with
  | JStr kind =>
      if String.eqb kind "join" then case_join ws identity
      else if String.eqb kind "leave" then case_leave ws identity
      else if String.eqb kind "mark" then case_mark action identity
      else if String.eqb kind "unmark" then case_unmark action identity
      else if String.eqb kind "chat" then case_chat message action
      else ret tt
  | _ => ret tt
  end.

(** [ws.on('message', (message) => ...)]: the frame is parsed before the
    [try] is entered. *)
Definition on_message (ws : nat) (message : RawData) : M unit :=
  let! action := parse message in
  try_catch_return (dispatch ws message action).

(** [websocketServer.on('connection', (ws) => ...)]; the server has added
    the socket to [clients] when it emits the event. *)
Definition on_connection (ws : nat) : M unit :=
  do! modify (fun rm => with_clients (clients rm ++ [mkWebSocket ws OPEN]) rm) in
  sendChat (JStr "join").

(** [ws.on('close', ...)]; the server has taken the socket out of
    [clients] when the room's listener runs. *)
Definition on_close (ws : nat) : M unit :=
  do! modify (fun rm =>
        with_clients (List.filter (fun client => negb (sock client =? ws)%nat)
                        (clients rm)) rm) in
  sendChat (JStr "leave").

(** [websocketServer.on('close', ...)] *)
Definition on_server_close : M unit := sendChat (JStr "leave").

(** *** The room as a machine driven by the server's events *)

Inductive Event : Type :=
  | Connection (ws : nat)
  | Message (ws : nat) (message : RawData)
  | Close (ws : nat)
  | ServerClose.

Definition handle (ev : Event) : M unit :=
  match ev with
  | Connection ws => on_connection ws
  | Message ws message => on_message ws message
  | Close ws => on_close ws
  | ServerClose => on_server_close
  end.

(** The rooms a constructed room can become, one event after another;
    a handler that throws leaves the room as it was when it threw. *)
Inductive reachable : Room -> Prop :=
  | reachable_new name game slug : reachable (new_Room name game slug)
  | reachable_event rm ev :
      reachable rm -> reachable (room_after (handle ev rm)).

(** *** What a frame decodes to

    The frame parses, its [action] is [kind], its [authToken] resolves to
    [identity] and its [payload] is [payload] ([JUndefined] when there is
    none). *)
Definition decodes (message : RawData) (kind : string) (identity : Identity)
    (payload : jsval) : Prop :=
  match JSON_parse message with
  | Some action =>
      prop action "action" = JStr kind /\
      verifyRoomToken (prop action "authToken") = Some identity /\
      prop action "payload" = payload
  | None => False
  end.

(** A mark or unmark of the numbers [r], [c]. *)
Definition decodes_at (message : RawData) (kind : string) (identity : Identity)
    (r c : Z) : Prop :=
  exists payload,
    decodes message kind identity payload /\
    prop payload "row" = JNum r /\ prop payload "col" = JNum c.

End WithRuntime.
End Handlers.
Export Handlers.

(** ** A reader of JSON texts

  [JSON.parse] on the texts the examples below put on the wire: literals,
  integers, strings without escapes, arrays and objects, with white space
  between tokens.  Texts outside this fragment are refused. *)

Module JSONText.

Local Open Scope char_scope.

Definition is_ws (c : ascii) : bool :=
  match c with
  | " " | "009" | "010" | "013" => true
  | _ => false
  end.

Definition digit (c : ascii) : option Z :=
  let n := Z.of_nat (nat_of_ascii c) in
  if ((48 <=? n) && (n <=? 57))%Z then Some (n - 48)%Z else None.

Definition is_Some_digit (c : ascii) : bool :=
  match digit c with Some _ => true | None => false end.

Fixpoint skip_ws (s : list ascii) : list ascii :=
  match s with
  | c :: r => if is_ws c then skip_ws r else s
  | [] => []
  end.

Fixpoint read_digits (s : list ascii) (acc : Z) : Z * list ascii :=
  match s with
  | c :: r =>
      match digit c with
      | Some d => read_digits r (10 * acc + d)%Z
      | None => (acc, s)
      end
  | [] => (acc, [])
  end.

Definition ends_number (s : list ascii) : bool :=
  match s with
  | "." :: _ | "e" :: _ | "E" :: _ => false
  | _ => true
  end.

(** An integer: [0], or a nonzero digit followed by digits. *)
Definition read_nat (s : list ascii) : option (Z * list ascii) :=
  match s with
  | "0" :: r =>
      match r with
      | c :: _ => if is_Some_digit c then None else if ends_number r then Some (0%Z, r) else None
      | [] => Some (0%Z, r)
      end
  | c :: r =>
      match digit c with
      | Some d => let (z, r') := read_digits r d in
                  if ends_number r' then Some (z, r') else None
      | None => None
      end
  | [] => None
  end.

Fixpoint read_string (s : list ascii) : option (string * list ascii) :=
  match s with
  | [] => None
  | "034" :: r => Some (EmptyString, r)
  | "092" :: _ => None
  | c :: r =>
      if (nat_of_ascii c <? 32)%nat then None else
      match read_string r with
      | Some (str, r') => Some (String c str, r')
      | None => None
      end
  end.

Section Members.
Variable read_value : list ascii -> option (jsval * list ascii).

Fixpoint read_elements (n : nat) (s : list ascii) (acc : list jsval)
  : option (list jsval * list ascii) :=
  match n with
  | O => None
  | S n' =>
      match read_value s with
      | None => None
      | Some (v, r) =>
          match skip_ws r with
          | "," :: r' => read_elements n' r' (acc ++ [v])%list
          | "]" :: r' => Some ((acc ++ [v])%list, r')
          | _ => None
          end
      end
  end.

Fixpoint read_members (n : nat) (s : list ascii) (acc : list (string * jsval))
  : option (list (string * jsval) * list ascii) :=
  match n with
  | O => None
  | S n' =>
      match skip_ws s with
      | "034" :: r =>
          match read_string r with
          | None => None
          | Some (k, r1) =>
              match skip_ws r1 with
              | ":" :: r2 =>
                  match read_value r2 with
                  | None => None
                  | Some (v, r3) =>
                      match skip_ws r3 with
                      | "," :: r4 => read_members n' r4 (acc ++ [(k, v)])%list
                      | "}" :: r4 => Some ((acc ++ [(k, v)])%list, r4)
                      | _ => None
                      end
                  end
              | _ => None
              end
          end
      | _ => None
      end
  end.
End Members.

Fixpoint read_value (fuel : nat) (s : list ascii) : option (jsval * list ascii) :=
  match fuel with
  | O => None
  | S fuel' =>
      match skip_ws s with
      | "n" :: "u" :: "l" :: "l" :: r => Some (JNull, r)
      | "t" :: "r" :: "u" :: "e" :: r => Some (JBool true, r)
      | "f" :: "a" :: "l" :: "s" :: "e" :: r => Some (JBool false, r)
      | "034" :: r =>
          match read_string r with
          | Some (str, r') => Some (JStr str, r')
          | None => None
          end
      | "-" :: r =>
          match read_nat r with
          | Some (z, r') => Some (JNum (- z)%Z, r')
          | None => None
          end
      | "[" :: r =>
          match skip_ws r with
          | "]" :: r' => Some (JArr [], r')
          | _ =>
              match read_elements (read_value fuel') (length r) r [] with
              | Some (elems, r') => Some (JArr elems, r')
              | None => None
              end
          end
      | "{" :: r =>
          match skip_ws r with
          | "}" :: r' => Some (JObj [], r')
          | _ =>
              match read_members (read_value fuel') (length r) r [] with
              | Some (props, r') => Some (JObj props, r')
              | None => None
              end
          end
      | r =>
          match read_nat r with
          | Some (z, r') => Some (JNum z, r')
          | None => None
          end
      end
  end.

Definition JSON_parse (text : string) : option jsval :=
  let s := list_ascii_of_string text in
  match read_value (S (length s)) s with
  | Some (v, r) => match skip_ws r with [] => Some v | _ => None end
  | None => None
  end.

(** Frames are written below with an apostrophe where the text has a
    double quote. *)
Fixpoint frame (text : string) : string :=
  match text with
  | EmptyString => EmptyString
  | String c rest => String (if Ascii.eqb c "'" then "034" else c) (frame rest)
  end.

End JSONText.

(** ** A resolver and rooms for the examples *)

Module Demo.

(** Two tokens resolve; everything else is refused. *)
Definition verifyRoomToken (token : jsval) : option Identity :=
  match token with
  | JStr t =>
      if String.eqb t "token-a" then Some (mkIdentity "ann" "red")
      else if String.eqb t "token-b" then Some (mkIdentity "bob" "blue")
      else None
  | _ => None
  end.

Definition on_message : nat -> RawData -> M unit :=
  on_message JSONText.JSON_parse verifyRoomToken.

Definition handle : Event -> M unit :=
  handle JSONText.JSON_parse verifyRoomToken.

(** A fresh room to which sockets 1 and 2 have connected. *)
Definition lobby : Room :=
  room_after (handle (Connection 2)
    (room_after (handle (Connection 1) (new_Room "room" "game" "slug")))).

Definition mark_a_00 : RawData :=
  JSONText.frame "{'action':'mark','authToken':'token-a','payload':{'row':0,'col':0}}".
Definition mark_b_00 : RawData :=
  JSONText.frame "{'action':'mark','authToken':'token-b','payload':{'row':0,'col':0}}".
Definition unmark_b_00 : RawData :=
  JSONText.frame "{'action':'unmark','authToken':'token-b','payload':{'row':0,'col':0}}".
Definition mark_a_no_col : RawData :=
  JSONText.frame "{'action':'mark','authToken':'token-a','payload':{'row':0}}".
Definition mark_a_70 : RawData :=
  JSONText.frame "{'action':'mark','authToken':'token-a','payload':{'row':7,'col':0}}".
Definition mark_x_00 : RawData :=
  JSONText.frame "{'action':'mark','authToken':'nobody','payload':{'row':0,'col':0}}".
Definition join_a : RawData :=
  JSONText.frame "{'action':'join','authToken':'token-a'}".
Definition chat_a_empty : RawData :=
  JSONText.frame "{'action':'chat','authToken':'token-a','payload':{}}".
Definition chat_a_hello : RawData :=
  JSONText.frame "{'action':'chat','authToken':'token-a','payload':{'message':'hello'}}".
Definition chat_a_bare : RawData :=
  JSONText.frame "{'action':'chat','authToken':'token-a'}".

(** The lobby after ann marked (0,0). *)
Definition marked : Room := room_after (handle (Message 1 mark_a_00) lobby).

Definition unmark_a_00 : RawData :=
  JSONText.frame "{'action':'unmark','authToken':'token-a','payload':{'row':0,'col':0}}".
Definition leave_a : RawData :=
  JSONText.frame "{'action':'leave','authToken':'token-a'}".
Definition join_b : RawData :=
  JSONText.frame "{'action':'join','authToken':'token-b'}".
Definition dance_a : RawData :=
  JSONText.frame "{'action':'dance','authToken':'token-a'}".
Definition mark_a_null : RawData :=
  JSONText.frame "{'action':'mark','authToken':'token-a','payload':{'row':null,'col':0}}".
Definition mark_b_keys : RawData :=
  JSONText.frame "{'action':'mark','authToken':'token-b','payload':{'row':'0','col':[0]}}".

End Demo.

(** * Properties *)

(** ** Array keys *)

Lemma string_of_Z_inj (z1 z2 : Z) : string_of_Z z1 = string_of_Z z2 -> z1 = z2.
Proof.
  unfold string_of_Z. intros H.
  assert (Hnn : forall z, Z.to_int z <> Decimal.Pos Decimal.Nil /\
                          Z.to_int z <> Decimal.Neg Decimal.Nil).
  { intros [|p|p]; simpl; split; try discriminate;
      intros [= Hp]; exact (DecimalPos.Unsigned.to_uint_nonnil p Hp). }
  apply (f_equal NilZero.int_of_string) in H.
  rewrite !NilZero.isi in H by apply Hnn.
  injection H as H. now apply DecimalZ.to_int_inj.
Qed.

Lemma find_seq_unique (p : nat -> bool) (k start len : nat) :
  (forall i, p i = true <-> i = k) ->
  find p (seq start len) =
    if bool_decide (start <= k < start + len)%nat then Some k else None.
Proof.
  intros Hp. revert start. induction len as [|len IH]; intros start; simpl.
  - rewrite bool_decide_eq_false_2 by lia. reflexivity.
  - destruct (p start) eqn:Hs.
    + apply Hp in Hs. subst. rewrite bool_decide_eq_true_2 by lia. reflexivity.
    + rewrite IH. assert (start <> k) by (intros ->; rewrite (proj2 (Hp k) eq_refl) in Hs; discriminate).
      destruct (bool_decide (S start <= k < S start + len)%nat) eqn:Hd.
      * apply bool_decide_eq_true_1 in Hd. rewrite bool_decide_eq_true_2 by lia. reflexivity.
      * apply bool_decide_eq_false_1 in Hd. rewrite bool_decide_eq_false_2 by lia. reflexivity.
Qed.

(** A number names the element at its own value, and only inside the array. *)
Lemma array_index_num (len : nat) (z : Z) :
  array_index len (JNum z) =
    if bool_decide (0 <= z < Z.of_nat len) then Some (Z.to_nat z) else None.
Proof.
  unfold array_index. simpl ToString.
  destruct (decide (0 <= z)) as [Hz|Hz].
  - rewrite (find_seq_unique _ (Z.to_nat z)).
    + destruct (bool_decide (0 <= z < Z.of_nat len)) eqn:Hd.
      * apply bool_decide_eq_true_1 in Hd. rewrite bool_decide_eq_true_2 by lia. reflexivity.
      * apply bool_decide_eq_false_1 in Hd. rewrite bool_decide_eq_false_2 by lia. reflexivity.
    + intros i. rewrite String.eqb_eq. split.
      * intros H. apply string_of_Z_inj in H. lia.
      * intros ->. f_equal. lia.
  - rewrite bool_decide_eq_false_2 by lia.
    destruct (find _ _) as [i|] eqn:Hf; [|reflexivity].
    apply find_some in Hf as [_ Hf]. apply String.eqb_eq, string_of_Z_inj in Hf. lia.
Qed.

Lemma array_index_lt (len : nat) (v : jsval) (i : nat) :
  array_index len v = Some i -> (i < len)%nat.
Proof.
  unfold array_index. intros H. apply find_some in H as [H _].
  apply in_seq in H. lia.
Qed.

Lemma element_num {A} (arr : list A) (z : Z) :
  element arr (JNum z) = if bool_decide (0 <= z) then arr !! Z.to_nat z else None.
Proof.
  unfold element. rewrite array_index_num.
  destruct (bool_decide (0 <= z < Z.of_nat (length arr))) eqn:Hd.
  - apply bool_decide_eq_true_1 in Hd. rewrite bool_decide_eq_true_2 by lia. reflexivity.
  - apply bool_decide_eq_false_1 in Hd.
    destruct (bool_decide (0 <= z)) eqn:Hz; [|reflexivity].
    apply bool_decide_eq_true_1 in Hz. symmetry. apply lookup_ge_None. lia.
Qed.

(** On numbers the handler's lookup is the grid's. *)
Lemma cell_of_num (b : Board) (r c : Z) :
  cell_of b (JNum r) (JNum c) = cell_at b r c.
Proof.
  unfold cell_of, cell_at. rewrite element_num.
  destruct (bool_decide (0 <= r)) eqn:Hr.
  - apply bool_decide_eq_true_1 in Hr.
    replace (0 <=? r) with true by (symmetry; apply Z.leb_le; lia). simpl.
    destruct (b !! Z.to_nat r) as [cells|]; [|destruct (0 <=? c); reflexivity].
    rewrite element_num. destruct (bool_decide (0 <= c)) eqn:Hc.
    + apply bool_decide_eq_true_1 in Hc.
      replace (0 <=? c) with true by (symmetry; apply Z.leb_le; lia). reflexivity.
    + apply bool_decide_eq_false_1 in Hc.
      replace (0 <=? c) with false by (symmetry; apply Z.leb_gt; lia). reflexivity.
  - apply bool_decide_eq_false_1 in Hr.
    replace (0 <=? r) with false by (symmetry; apply Z.leb_gt; lia). reflexivity.
Qed.

(** ** Cells and their colors *)

Lemma cell_of_inv (b : Board) (row col : jsval) (cell : Cell) :
  cell_of b row col = Some cell ->
  exists r cells c,
    array_index (length b) row = Some r /\ b !! r = Some cells /\
    array_index (length cells) col = Some c /\ cells !! c = Some cell.
Proof.
  unfold cell_of, element. intros H.
  destruct (array_index (length b) row) as [r|] eqn:Hr; [|discriminate].
  destruct (b !! r) as [cells|] eqn:Hcells; [|discriminate].
  destruct (array_index (length cells) col) as [c|] eqn:Hc; [|discriminate].
  eauto 10.
Qed.

Lemma write_colors_alter (b : Board) (row col : jsval) r cells c (cs : list string) :
  array_index (length b) row = Some r -> b !! r = Some cells ->
  array_index (length cells) col = Some c ->
  write_colors row col cs b = alter (alter (set_colors cs) c) r b.
Proof. unfold write_colors. intros -> -> ->. reflexivity. Qed.

(** The written cell reads back with its goal kept. *)
Lemma cell_of_write_colors (b : Board) (row col : jsval) (cell : Cell) (cs : list string) :
  cell_of b row col = Some cell ->
  cell_of (write_colors row col cs b) row col = Some (set_colors cs cell).
Proof.
  intros H. destruct (cell_of_inv _ _ _ _ H) as (r & cells & c & Hr & Hcells & Hc & Hcell).
  rewrite (write_colors_alter _ _ _ _ _ _ _ Hr Hcells Hc).
  unfold cell_of, element. rewrite length_alter, Hr.
  rewrite list_lookup_alter_eq, Hcells. simpl.
  rewrite length_alter, Hc. rewrite list_lookup_alter_eq, Hcell. reflexivity.
Qed.

(** Every other cell of the grid is left as it was. *)
Lemma cell_at_write_colors_other (b : Board) (r c r' c' : Z) (cs : list string) :
  (r', c') <> (r, c) ->
  cell_at (write_colors (JNum r) (JNum c) cs b) r' c' = cell_at b r' c'.
Proof.
  intros Hne. unfold write_colors. rewrite array_index_num.
  destruct (bool_decide (0 <= r < Z.of_nat (length b))) eqn:Hr; [|reflexivity].
  apply bool_decide_eq_true_1 in Hr.
  destruct (b !! Z.to_nat r) as [cells|] eqn:Hcells; [|reflexivity].
  rewrite array_index_num.
  destruct (bool_decide (0 <= c < Z.of_nat (length cells))) eqn:Hc; [|reflexivity].
  apply bool_decide_eq_true_1 in Hc.
  unfold cell_at. destruct ((0 <=? r') && (0 <=? c')) eqn:Hpos; [|reflexivity].
  apply andb_true_iff in Hpos as [Hr' Hc']. apply Z.leb_le in Hr', Hc'.
  destruct (decide (Z.to_nat r' = Z.to_nat r)) as [Heq|Hneq].
  - rewrite Heq, list_lookup_alter_eq, Hcells. simpl.
    rewrite list_lookup_alter_ne; [reflexivity|].
    intros Hcc. apply Hne. f_equal; lia.
  - rewrite list_lookup_alter_ne by congruence. reflexivity.
Qed.

Lemma goals_write_colors (b : Board) (row col : jsval) (cs : list string) :
  map (map goal) (write_colors row col cs b) = map (map goal) b.
Proof.
  unfold write_colors.
  destruct (array_index (length b) row) as [r|]; [|reflexivity].
  destruct (b !! r) as [cells|] eqn:Hcells; [|reflexivity].
  destruct (array_index (length cells) col) as [c|]; [|reflexivity].
  apply list_eq. intros i. rewrite !list_lookup_fmap.
  destruct (decide (i = r)) as [->|Hi].
  - rewrite list_lookup_alter_eq, Hcells. simpl. f_equal.
    apply list_eq. intros j. rewrite !list_lookup_fmap.
    destruct (decide (j = c)) as [->|Hj].
    + rewrite list_lookup_alter_eq. destruct (cells !! c); reflexivity.
    + rewrite list_lookup_alter_ne by congruence. reflexivity.
  - rewrite list_lookup_alter_ne by congruence. reflexivity.
Qed.

Lemma marks_unique_write_colors (b : Board) (row col : jsval) (cs : list string) :
  marks_unique b -> NoDup cs -> marks_unique (write_colors row col cs b).
Proof.
  unfold marks_unique, write_colors. intros Hb Hcs.
  destruct (array_index (length b) row) as [r|]; [|exact Hb].
  destruct (b !! r) as [cells|] eqn:Hcells; [|exact Hb].
  destruct (array_index (length cells) col) as [c|]; [|exact Hb].
  apply Forall_alter; [exact Hb|]. intros cells' Hcells' Hcells''.
  apply Forall_alter; [exact Hcells''|]. intros cell _ _. exact Hcs.
Qed.

Lemma goals_fixed_default : goals_fixed default_board.
Proof. reflexivity. Qed.

Lemma marks_unique_default : marks_unique default_board.
Proof. unfold marks_unique, default_board, free. repeat constructor. Qed.

(** With the constructor's goals the grid has [boardHeight] rows of
    [boardWidth] cells. *)
Lemma goals_fixed_in_bounds (b : Board) (r c : Z) :
  goals_fixed b ->
  (is_Some (cell_at b r c) <-> 0 <= r < boardHeight /\ 0 <= c < boardWidth).
Proof.
  unfold goals_fixed, cell_at. intros Hg.
  assert (Hlen : forall i, (length <$> (b !! i)) = (length <$> (default_board !! i))).
  { intros i. apply (f_equal (fun l => length <$> (l !! i))) in Hg.
    rewrite !list_lookup_fmap in Hg.
    destruct (b !! i), (default_board !! i); simpl in *; try congruence;
      rewrite ?length_map in Hg; exact Hg. }
  change boardHeight with 5. change boardWidth with 5.
  destruct ((0 <=? r) && (0 <=? c)) eqn:Hpos.
  - apply andb_true_iff in Hpos as [Hr Hc]. apply Z.leb_le in Hr, Hc.
    specialize (Hlen (Z.to_nat r)).
    destruct (b !! Z.to_nat r) as [cells|] eqn:Hcells.
    + destruct (default_board !! Z.to_nat r) as [cells0|] eqn:H0; [|discriminate].
      simpl in Hlen. injection Hlen as Hlen.
      assert (Hlt : (Z.to_nat r < 5)%nat) by (apply lookup_lt_Some in H0; exact H0).
      assert (Hfive : length cells0 = 5%nat).
      { destruct (Z.to_nat r) as [|[|[|[|[|n]]]]]; simpl in H0;
          try (injection H0 as <-; reflexivity); lia. }
      rewrite lookup_lt_is_Some. lia.
    + destruct (default_board !! Z.to_nat r) as [cells0|] eqn:H0; [discriminate|].
      apply lookup_ge_None in H0. simpl in H0. split.
      * intros [? ?]; discriminate.
      * lia.
  - apply andb_false_iff in Hpos. split.
    + intros [? ?]; discriminate.
    + intros [Hr Hc]. destruct Hpos as [Hn|Hn]; apply Z.leb_gt in Hn; lia.
Qed.

(** ** Running the handlers *)

Lemma prop_defined (v : jsval) (k : string) :
  is_undefined (prop v k) = false -> nullish v = false.
Proof. destruct v; simpl; intros H; (reflexivity || discriminate). Qed.

Lemma colors_at_run (row col : jsval) (rm : Room) :
  colors_at row col rm =
    match cell_of (board rm) row col with
    | Some cell => Returned (colors cell) rm
    | None => Thrown TypeError rm
    end.
Proof.
  unfold colors_at, board_at, cell_of, bind, get, ret, throw.
  destruct (element (board rm) row) as [cells|]; [|reflexivity].
  destruct (element cells col); reflexivity.
Qed.

Lemma sendCellUpdate_run (row col : jsval) (cell : Cell) (rm : Room) :
  cell_of (board rm) row col = Some cell ->
  sendCellUpdate row col rm =
    Returned tt (with_wire (wire rm ++ broadcast (cellUpdate row col (Some cell)) (clients rm)) rm).
Proof.
  unfold sendCellUpdate, board_at, cell_of, bind, get, ret, throw.
  destruct (element (board rm) row) as [cells|]; [|discriminate].
  intros ->. reflexivity.
Qed.

Section Run.

Variable JSON_parse : string -> option jsval.
Variable verifyRoomToken : jsval -> option Identity.

Local Abbreviation on_message := (on_message JSON_parse verifyRoomToken).
Local Abbreviation dispatch := (dispatch verifyRoomToken).
Local Abbreviation decodes := (decodes JSON_parse verifyRoomToken).
Local Abbreviation decodes_at := (decodes_at JSON_parse verifyRoomToken).

Lemma on_message_parsed ws message action rm :
  JSON_parse message = Some action ->
  on_message ws message rm = try_catch_return (dispatch ws message action) rm.
Proof. unfold Handlers.on_message, parse, bind. intros ->. reflexivity. Qed.

(** A frame that is not JSON: the exception leaves the handler. *)
Lemma on_message_syntax_error ws message rm :
  JSON_parse message = None ->
  on_message ws message rm = Thrown SyntaxError rm.
Proof. unfold Handlers.on_message, parse, bind. intros ->. reflexivity. Qed.

(** Once the frame has parsed, nothing leaves the handler. *)
Lemma on_message_returns ws message action rm :
  JSON_parse message = Some action ->
  exists rm', on_message ws message rm = Returned tt rm'.
Proof.
  intros H. rewrite (on_message_parsed _ _ _ _ H). unfold try_catch_return.
  destruct (dispatch ws message action rm) as [[] rm'|e rm']; eauto.
Qed.

Lemma decodes_inv message kind identity payload :
  decodes message kind identity payload ->
  exists action,
    JSON_parse message = Some action /\ nullish action = false /\
    prop action "action" = JStr kind /\
    verifyRoomToken (prop action "authToken") = Some identity /\
    prop action "payload" = payload.
Proof.
  unfold Handlers.decodes. destruct (JSON_parse message) as [action|]; [|tauto].
  intros (Hk & Hv & Hp). exists action. repeat split; try assumption.
  destruct action; simpl in Hk; (reflexivity || discriminate).
Qed.

Lemma dispatch_kind ws message action kind identity rm :
  nullish action = false ->
  prop action "action" = JStr kind ->
  verifyRoomToken (prop action "authToken") = Some identity ->
  dispatch ws message action rm =
    (if String.eqb kind "join" then case_join ws identity
     else if String.eqb kind "leave" then case_leave ws identity
     else if String.eqb kind "mark" then case_mark action identity
     else if String.eqb kind "unmark" then case_unmark action identity
     else if String.eqb kind "chat" then case_chat message action
     else ret tt) rm.
Proof.
  intros Hn Hk Hv. unfold Handlers.dispatch, getProp, verify, bind. rewrite Hn. unfold ret at 1.
  rewrite Hv. unfold ret at 1. unfold ret at 1. rewrite Hk. reflexivity.
Qed.

(** A mark that names its row and column. *)
Lemma case_mark_run action identity rm :
  nullish action = false ->
  let row := prop (prop action "payload") "row" in
  let col := prop (prop action "payload") "col" in
  is_undefined row = false -> is_undefined col = false ->
  case_mark action identity rm =
    match cell_of (board rm) row col with
    | None => Thrown TypeError rm
    | Some cell =>
        if bool_decide (color identity ∈ colors cell) then Returned tt rm
        else
          let marked := colors cell ++ [color identity] in
          Returned tt
            (with_wire
               (wire rm
                  ++ broadcast (cellUpdate row col (Some (set_colors marked cell))) (clients rm)
                  ++ broadcast
                       (chat (JStr (nickname identity +:+ " is marking (" +:+ ToString row
                                      +:+ "," +:+ ToString col +:+ ")")))
                       (clients rm))
               (with_board (write_colors row col marked (board rm)) rm))
    end.
Proof.
  intros Hn row col Hrow Hcol.
  pose proof (prop_defined _ _ Hrow) as Hp.
  unfold case_mark, getProp. rewrite Hn. unfold bind at 1, ret at 1.
  rewrite Hp. unfold bind at 1, ret at 1. unfold bind at 1, ret at 1.
  fold row col. rewrite Hrow, Hcol. cbn [orb].
  unfold bind at 1. rewrite colors_at_run.
  destruct (cell_of (board rm) row col) as [cell|] eqn:Hcell; [|reflexivity].
  destruct (bool_decide (color identity ∈ colors cell)); [reflexivity|].
  unfold bind at 1. unfold push_color, bind at 1. rewrite colors_at_run, Hcell.
  unfold modify. unfold bind at 1.
  erewrite sendCellUpdate_run by (simpl; apply cell_of_write_colors; exact Hcell).
  unfold sendChat, sendServerMessage, modify. simpl.
  unfold with_wire, with_board. simpl. rewrite <- app_assoc. reflexivity.
Qed.

Lemma board_at_run (row col : jsval) (rm : Room) :
  board_at row col rm =
    match element (board rm) row with
    | Some cells => Returned (element cells col) rm
    | None => Thrown TypeError rm
    end.
Proof.
  unfold board_at, bind, get, ret, throw.
  destruct (element (board rm) row); reflexivity.
Qed.

(** An unmark that names its row and column. *)
Lemma case_unmark_run action identity rm :
  nullish action = false ->
  let row := prop (prop action "payload") "row" in
  let col := prop (prop action "payload") "col" in
  is_undefined row = false -> is_undefined col = false ->
  case_unmark action identity rm =
    match cell_of (board rm) row col with
    | None => Thrown TypeError rm
    | Some cell =>
        let kept := filter (fun color' => color' ≠ color identity) (colors cell) in
        Returned tt
          (with_wire
             (wire rm
                ++ broadcast (cellUpdate row col (Some (set_colors kept cell))) (clients rm)
                ++ broadcast
                     (chat (JStr (nickname identity +:+ " is unmarking (" +:+ ToString row
                                    +:+ "," +:+ ToString col +:+ ")")))
                     (clients rm))
             (with_board (write_colors row col kept (board rm)) rm))
    end.
Proof.
  intros Hn row col Hrow Hcol.
  pose proof (prop_defined _ _ Hrow) as Hp.
  unfold case_unmark, getProp. rewrite Hn. unfold bind at 1, ret at 1.
  rewrite Hp. unfold bind at 1, ret at 1. unfold bind at 1, ret at 1.
  fold row col. rewrite Hrow, Hcol. cbn [orb].
  unfold bind at 1. unfold assign_colors. unfold bind at 1. rewrite board_at_run.
  unfold cell_of. destruct (element (board rm) row) as [cells|] eqn:Hcells; [|reflexivity].
  unfold bind at 1. unfold bind at 1. rewrite colors_at_run. unfold cell_of. rewrite Hcells.
  destruct (element cells col) as [cell|] eqn:Hcell; [|reflexivity].
  unfold ret at 1. unfold modify. unfold bind at 1.
  erewrite sendCellUpdate_run
    by (simpl; apply cell_of_write_colors; unfold cell_of; rewrite Hcells; exact Hcell).
  unfold sendChat, sendServerMessage, modify. simpl.
  unfold with_wire, with_board. simpl. rewrite <- app_assoc. reflexivity.
Qed.

(** A mark or unmark that lacks its row or its column changes nothing,
    whether the guard returns or reading the payload throws. *)
Lemma case_mark_missing action identity rm :
  is_undefined (prop (prop action "payload") "row")
    || is_undefined (prop (prop action "payload") "col") = true ->
  room_after (case_mark action identity rm) = rm.
Proof.
  intros H. unfold case_mark, getProp.
  destruct (nullish action); [reflexivity|].
  unfold bind at 1, ret at 1. cbv beta iota.
  destruct (nullish (prop action "payload")); [reflexivity|].
  unfold bind at 1, ret at 1. unfold bind at 1, ret at 1. cbv beta iota.
  rewrite H. reflexivity.
Qed.

Lemma case_unmark_missing action identity rm :
  is_undefined (prop (prop action "payload") "row")
    || is_undefined (prop (prop action "payload") "col") = true ->
  room_after (case_unmark action identity rm) = rm.
Proof.
  intros H. unfold case_unmark, getProp.
  destruct (nullish action); [reflexivity|].
  unfold bind at 1, ret at 1. cbv beta iota.
  destruct (nullish (prop action "payload")); [reflexivity|].
  unfold bind at 1, ret at 1. unfold bind at 1, ret at 1. cbv beta iota.
  rewrite H. reflexivity.
Qed.

Lemma case_join_run ws identity rm :
  case_join ws identity rm =
    Returned tt
      (with_wire
         (wire rm ++ [(ws, syncBoard (board rm))]
            ++ broadcast (chat (JStr (nickname identity +:+ " has joined."))) (clients rm))
         rm).
Proof.
  unfold case_join, bind, get, ws_send, sendChat, sendServerMessage, modify, with_wire.
  simpl. rewrite <- app_assoc. reflexivity.
Qed.

Lemma case_chat_run message action rm :
  nullish action = false ->
  case_chat message action rm =
    if nullish (prop action "payload") then Thrown TypeError rm
    else Returned tt
           (with_wire
              (wire rm ++ broadcast (chat (prop (prop action "payload") "message")) (clients rm))
              rm).
Proof.
  intros Hn. unfold case_chat, getProp. rewrite Hn. unfold bind at 1, ret at 1.
  cbv beta iota. destruct (nullish (prop action "payload")); reflexivity.
Qed.

Lemma try_catch_return_room (body : M unit) (rm : Room) :
  try_catch_return body rm = Returned tt (room_after (body rm)).
Proof. unfold try_catch_return. destruct (body rm) as [[] rm'|e rm']; reflexivity. Qed.

(** ** The message handler on decoded actions *)

Lemma on_message_decoded ws message kind identity payload rm :
  decodes message kind identity payload ->
  exists action,
    JSON_parse message = Some action /\ nullish action = false /\
    prop action "payload" = payload /\
    dispatch ws message action rm =
      (if String.eqb kind "join" then case_join ws identity
       else if String.eqb kind "leave" then case_leave ws identity
       else if String.eqb kind "mark" then case_mark action identity
       else if String.eqb kind "unmark" then case_unmark action identity
       else if String.eqb kind "chat" then case_chat message action
       else ret tt) rm /\
    on_message ws message rm = Returned tt (room_after (dispatch ws message action rm)).
Proof.
  intros H. destruct (decodes_inv _ _ _ _ H) as (action & Hparse & Hn & Hk & Hv & Hp).
  exists action. repeat split; try assumption.
  - apply dispatch_kind; assumption.
  - rewrite (on_message_parsed _ _ _ _ Hparse). apply try_catch_return_room.
Qed.

(** C2: an action whose [authToken] does not resolve to an identity, whatever
    its kind, produces no outbound message and leaves the board unchanged:
    the handler returns with the room exactly as it was. *)
Theorem unresolved_token_is_dropped ws message action rm :
  JSON_parse message = Some action ->
  verifyRoomToken (prop action "authToken") = None ->
  on_message ws message rm = Returned tt rm.
Proof.
  intros Hparse Hv. rewrite (on_message_parsed _ _ _ _ Hparse), try_catch_return_room.
  f_equal. unfold Handlers.dispatch, getProp, verify.
  destruct (nullish action); [reflexivity|].
  unfold bind at 1, ret at 1. cbv beta iota. rewrite Hv. reflexivity.
Qed.

(** C4: a mark with a valid token on an in-bounds cell that already holds
    the identity's color is dropped silently: no cellUpdate, no chat and no
    change of the board; the room is exactly as it was. *)
Theorem mark_of_present_color_is_dropped ws message identity r c cell rm :
  decodes_at message "mark" identity r c ->
  cell_at (board rm) r c = Some cell ->
  color identity ∈ colors cell ->
  on_message ws message rm = Returned tt rm.
Proof.
  intros (payload & Hd & Hrow & Hcol) Hcell Hin.
  destruct (on_message_decoded ws _ _ _ _ rm Hd) as (action & _ & Hn & Hp & Hdis & ->).
  f_equal. rewrite Hdis. cbn [String.eqb Ascii.eqb Bool.eqb].
  rewrite case_mark_run; rewrite ?Hp, ?Hrow, ?Hcol; try reflexivity; try assumption.
  rewrite cell_of_num, Hcell. rewrite bool_decide_eq_true_2 by assumption. reflexivity.
Qed.

(** C3 (amended): a mark with a valid token on an in-bounds cell that
    already holds the identity's color leaves the board unchanged and emits
    nothing: no cellUpdate and no chat is added to the wire. *)
Theorem mark_of_present_color_emits_nothing ws message identity r c cell rm :
  decodes_at message "mark" identity r c ->
  cell_at (board rm) r c = Some cell ->
  color identity ∈ colors cell ->
  exists rm',
    on_message ws message rm = Returned tt rm' /\
    board rm' = board rm /\ wire rm' = wire rm.
Proof.
  intros (payload & Hd & Hrow & Hcol) Hcell Hin.
  destruct (on_message_decoded ws _ _ _ _ rm Hd) as (action & _ & Hn & Hp & Hdis & ->).
  eexists. split; [reflexivity|]. rewrite Hdis. cbn [String.eqb Ascii.eqb Bool.eqb].
  rewrite case_mark_run; rewrite ?Hp, ?Hrow, ?Hcol; try reflexivity; try assumption.
  rewrite cell_of_num, Hcell. rewrite bool_decide_eq_true_2 by assumption.
  split; reflexivity.
Qed.

(** What a mark of an absent color does: the color is pushed onto the cell
    and a cellUpdate and a chat are broadcast. *)
Lemma mark_of_absent_color ws message identity r c cell rm :
  decodes_at message "mark" identity r c ->
  cell_at (board rm) r c = Some cell ->
  color identity ∉ colors cell ->
  let marked := colors cell ++ [color identity] in
  on_message ws message rm =
    Returned tt
      (with_wire
         (wire rm
            ++ broadcast (cellUpdate (JNum r) (JNum c) (Some (set_colors marked cell)))
                 (clients rm)
            ++ broadcast
                 (chat (JStr (nickname identity +:+ " is marking (" +:+ string_of_Z r
                                +:+ "," +:+ string_of_Z c +:+ ")")))
                 (clients rm))
         (with_board (write_colors (JNum r) (JNum c) marked (board rm)) rm)).
Proof.
  intros (payload & Hd & Hrow & Hcol) Hcell Hin marked.
  destruct (on_message_decoded ws _ _ _ _ rm Hd) as (action & _ & Hn & Hp & Hdis & ->).
  f_equal. rewrite Hdis. cbn [String.eqb Ascii.eqb Bool.eqb].
  rewrite case_mark_run; rewrite ?Hp, ?Hrow, ?Hcol; try reflexivity; try assumption.
  rewrite cell_of_num, Hcell. rewrite bool_decide_eq_false_2 by assumption. reflexivity.
Qed.

Lemma filter_absent (x : string) (l : list string) :
  x ∉ l -> filter (fun y => y ≠ x) l = l.
Proof.
  induction l as [|y l IH]; intros Hx; [reflexivity|].
  rewrite not_elem_of_cons in Hx. destruct Hx as [Hxy Hx].
  rewrite filter_cons_True by congruence. f_equal. apply IH, Hx.
Qed.

(** C6: an unmark with a valid token and in-bounds row and col removes the
    identity's color from the cell when it is there and keeps the cell's
    other colors (and every other cell) as they were; whether or not the
    color was there, a cellUpdate for the cell and a chat line are
    broadcast. *)
Theorem unmark_removes_own_color_and_broadcasts ws message identity r c cell rm :
  decodes_at message "unmark" identity r c ->
  cell_at (board rm) r c = Some cell ->
  let kept := filter (fun color' => color' ≠ color identity) (colors cell) in
  exists rm',
    on_message ws message rm = Returned tt rm' /\
    cell_at (board rm') r c = Some (set_colors kept cell) /\
    (color identity ∉ kept) /\
    (forall x, x ≠ color identity -> (x ∈ kept <-> x ∈ colors cell)) /\
    (color identity ∉ colors cell -> kept = colors cell) /\
    (forall r' c', (r', c') <> (r, c) ->
       cell_at (board rm') r' c' = cell_at (board rm) r' c') /\
    wire rm' =
      wire rm
        ++ broadcast (cellUpdate (JNum r) (JNum c) (Some (set_colors kept cell))) (clients rm)
        ++ broadcast
             (chat (JStr (nickname identity +:+ " is unmarking (" +:+ string_of_Z r
                            +:+ "," +:+ string_of_Z c +:+ ")")))
             (clients rm).
Proof.
  intros (payload & Hd & Hrow & Hcol) Hcell kept.
  destruct (on_message_decoded ws _ _ _ _ rm Hd) as (action & _ & Hn & Hp & Hdis & ->).
  eexists. split; [reflexivity|]. rewrite Hdis. cbn [String.eqb Ascii.eqb Bool.eqb].
  rewrite case_unmark_run; rewrite ?Hp, ?Hrow, ?Hcol; try reflexivity; try assumption.
  rewrite cell_of_num, Hcell. cbn [room_after with_wire with_board board wire].
  repeat split.
  - rewrite <- cell_of_num. apply cell_of_write_colors. rewrite cell_of_num. exact Hcell.
  - unfold kept. rewrite list_elem_of_filter. tauto.
  - unfold kept. rewrite list_elem_of_filter. tauto.
  - unfold kept. rewrite list_elem_of_filter. tauto.
  - intros Hnot. apply filter_absent, Hnot.
  - intros r' c' Hne. apply cell_at_write_colors_other. exact Hne.
Qed.

(** C7: a mark or unmark whose payload lacks [row] or lacks [col] produces
    no outbound message and no change of the board, even though its token
    resolves: the room is exactly as it was. *)
Theorem missing_coordinates_are_dropped ws message kind identity payload rm :
  kind = "mark" \/ kind = "unmark" ->
  decodes message kind identity payload ->
  prop payload "row" = JUndefined \/ prop payload "col" = JUndefined ->
  on_message ws message rm = Returned tt rm.
Proof.
  intros Hkind Hd Hmiss.
  destruct (on_message_decoded ws _ _ _ _ rm Hd) as (action & _ & Hn & Hp & Hdis & ->).
  f_equal. rewrite Hdis.
  assert (Hu : is_undefined (prop (prop action "payload") "row")
               || is_undefined (prop (prop action "payload") "col") = true).
  { rewrite Hp. destruct Hmiss as [-> | ->]; simpl; [reflexivity|apply orb_true_r]. }
  destruct Hkind as [-> | ->]; cbn [String.eqb Ascii.eqb Bool.eqb].
  - apply case_mark_missing, Hu.
  - apply case_unmark_missing, Hu.
Qed.

(** C8: a join whose token resolves sends one syncBoard carrying the whole
    current board to the originating socket only, and then broadcasts the
    one chat line "<nickname> has joined." to the open sockets; nothing else
    is sent and the room is otherwise unchanged. *)
Theorem join_syncs_sender_then_announces ws message identity payload rm :
  decodes message "join" identity payload ->
  on_message ws message rm =
    Returned tt
      (with_wire
         (wire rm ++ [(ws, syncBoard (board rm))]
            ++ broadcast (chat (JStr (nickname identity +:+ " has joined."))) (clients rm))
         rm).
Proof.
  intros Hd.
  destruct (on_message_decoded ws _ _ _ _ rm Hd) as (action & _ & Hn & Hp & Hdis & ->).
  f_equal. rewrite Hdis. cbn [String.eqb Ascii.eqb Bool.eqb].
  rewrite case_join_run. reflexivity.
Qed.

(** C9: a mark or unmark with a valid token whose row or col is a number
    outside [0, boardHeight) or [0, boardWidth): the read of the missing
    cell throws inside the [try], the [catch] returns, and the room is
    exactly as it was (nothing sent, board unchanged, nothing leaves the
    handler). *)
Theorem out_of_range_is_caught_and_dropped ws message kind identity r c rm :
  kind = "mark" \/ kind = "unmark" ->
  goals_fixed (board rm) ->
  decodes_at message kind identity r c ->
  ~ (0 <= r < boardHeight /\ 0 <= c < boardWidth) ->
  on_message ws message rm = Returned tt rm /\
  exists action,
    JSON_parse message = Some action /\
    dispatch ws message action rm = Thrown TypeError rm.
Proof.
  intros Hkind Hg (payload & Hd & Hrow & Hcol) Hout.
  destruct (on_message_decoded ws _ _ _ _ rm Hd) as (action & Hparse & Hn & Hp & Hdis & ->).
  assert (Hnone : cell_at (board rm) r c = None).
  { destruct (cell_at (board rm) r c) eqn:Hc; [|reflexivity].
    exfalso. apply Hout. apply (goals_fixed_in_bounds _ r c Hg). rewrite Hc. eauto. }
  assert (Hthrow : dispatch ws message action rm = Thrown TypeError rm).
  { rewrite Hdis.
    destruct Hkind as [-> | ->]; cbn [String.eqb Ascii.eqb Bool.eqb].
    - rewrite case_mark_run; rewrite ?Hp, ?Hrow, ?Hcol; try reflexivity; try assumption.
      rewrite cell_of_num, Hnone. reflexivity.
    - rewrite case_unmark_run; rewrite ?Hp, ?Hrow, ?Hcol; try reflexivity; try assumption.
      rewrite cell_of_num, Hnone. reflexivity. }
  split.
  - rewrite Hthrow. reflexivity.
  - exists action. split; assumption.
Qed.

(** C10 (amended): a chat whose token resolves and whose payload is
    present (neither absent nor [null]) is broadcast whatever the payload
    holds.  The guard tests the frame, which is always truthy, so it never
    returns; the chat that goes to the open sockets carries the payload's
    [message] as it is: [undefined] when the payload has none, and exactly
    the supplied string when it has one. *)
Theorem chat_is_broadcast_unguarded ws message identity payload rm :
  decodes message "chat" identity payload ->
  nullish payload = false ->
  truthy message = true /\
  on_message ws message rm =
    Returned tt
      (with_wire (wire rm ++ broadcast (chat (prop payload "message")) (clients rm)) rm) /\
  (prop payload "message" = JUndefined ->
     wire (room_after (on_message ws message rm)) =
       wire rm ++ broadcast (chat JUndefined) (clients rm)) /\
  (forall text, prop payload "message" = JStr text ->
     wire (room_after (on_message ws message rm)) =
       wire rm ++ broadcast (chat (JStr text)) (clients rm)).
Proof.
  intros Hd Hpay.
  destruct (on_message_decoded ws _ _ _ _ rm Hd) as (action & _ & Hn & Hp & Hdis & ->).
  rewrite Hdis. cbn [String.eqb Ascii.eqb Bool.eqb].
  rewrite (case_chat_run _ _ _ Hn), Hp, Hpay. cbn [room_after].
  split; [reflexivity|]. split; [reflexivity|].
  split; [intros -> | intros text ->]; reflexivity.
Qed.

(** ** What the handlers can do to the board *)

(** The body of the [try] leaves the board alone, or pushes onto one cell a
    color it did not hold, or filters one color out of one cell. *)
Lemma dispatch_board ws message action rm :
  let b' := board (room_after (dispatch ws message action rm)) in
  b' = board rm \/
  exists row col cell x,
    cell_of (board rm) row col = Some cell /\
    (((x ∉ colors cell) /\ b' = write_colors row col (colors cell ++ [x]) (board rm)) \/
     b' = write_colors row col (filter (fun y => y ≠ x) (colors cell)) (board rm)).
Proof.
  intros b'. subst b'.
  remember (dispatch ws message action rm) as o eqn:Ho.
  unfold Handlers.dispatch, getProp in Ho.
  destruct (nullish action) eqn:Hn; [subst o; left; reflexivity|].
  unfold bind at 1, ret at 1 in Ho; cbv beta iota in Ho. unfold verify in Ho.
  destruct (verifyRoomToken (prop action "authToken")) as [identity|];
    [|subst o; left; reflexivity].
  unfold bind at 1, ret at 1 in Ho; cbv beta iota in Ho.
  unfold bind at 1, ret at 1 in Ho; cbv beta iota in Ho.
  destruct (prop action "action") as [| | | |kind| |]; try (subst o; left; reflexivity).
  destruct (String.eqb kind "join");
    [rewrite case_join_run in Ho; subst o; left; reflexivity|].
  destruct (String.eqb kind "leave"); [subst o; left; reflexivity|].
  set (row := prop (prop action "payload") "row").
  set (col := prop (prop action "payload") "col").
  destruct (String.eqb kind "mark").
  { destruct (is_undefined row || is_undefined col) eqn:Hu.
    - subst o. rewrite case_mark_missing by exact Hu. left; reflexivity.
    - apply orb_false_iff in Hu as [Hrow Hcol].
      rewrite case_mark_run in Ho by assumption. fold row col in Ho.
      destruct (cell_of (board rm) row col) as [cell|] eqn:Hcell;
        [|subst o; left; reflexivity].
      destruct (bool_decide (color identity ∈ colors cell)) eqn:Hin;
        [subst o; left; reflexivity|].
      apply bool_decide_eq_false_1 in Hin. subst o.
      right. exists row, col, cell, (color identity). split; [exact Hcell|].
      left. split; [exact Hin|reflexivity]. }
  destruct (String.eqb kind "unmark").
  { destruct (is_undefined row || is_undefined col) eqn:Hu.
    - subst o. rewrite case_unmark_missing by exact Hu. left; reflexivity.
    - apply orb_false_iff in Hu as [Hrow Hcol].
      rewrite case_unmark_run in Ho by assumption. fold row col in Ho.
      destruct (cell_of (board rm) row col) as [cell|] eqn:Hcell;
        [|subst o; left; reflexivity].
      subst o. right. exists row, col, cell, (color identity). split; [exact Hcell|].
      right. reflexivity. }
  destruct (String.eqb kind "chat"); [|subst o; left; reflexivity].
  rewrite case_chat_run in Ho by exact Hn.
  destruct (nullish (prop action "payload")); subst o; left; reflexivity.
Qed.

Lemma handle_board ev rm :
  let b' := board (room_after (handle JSON_parse verifyRoomToken ev rm)) in
  b' = board rm \/
  exists row col cell x,
    cell_of (board rm) row col = Some cell /\
    (((x ∉ colors cell) /\ b' = write_colors row col (colors cell ++ [x]) (board rm)) \/
     b' = write_colors row col (filter (fun y => y ≠ x) (colors cell)) (board rm)).
Proof.
  destruct ev as [ws|ws message|ws|]; try (left; reflexivity).
  cbn [handle]. destruct (JSON_parse message) as [action|] eqn:Hparse.
  - rewrite (on_message_parsed _ _ _ _ Hparse), try_catch_return_room.
    apply dispatch_board.
  - rewrite (on_message_syntax_error _ _ _ Hparse). left; reflexivity.
Qed.

(** In every room the handlers can produce, the goals are the constructor's
    and no cell holds a color twice. *)
Lemma reachable_invariant rm :
  reachable JSON_parse verifyRoomToken rm ->
  goals_fixed (board rm) /\ marks_unique (board rm).
Proof.
  induction 1 as [name game slug|rm ev Hreach [Hg Hu]].
  - split; [apply goals_fixed_default|apply marks_unique_default].
  - destruct (handle_board ev rm) as [->|(row & col & cell & x & Hcell & Hb')];
      [split; assumption|].
    assert (Hnd : NoDup (colors cell)).
    { destruct (cell_of_inv _ _ _ _ Hcell) as (r & cells & c & _ & Hcells & _ & Hc).
      unfold marks_unique in Hu. rewrite Forall_lookup in Hu.
      specialize (Hu _ _ Hcells). rewrite Forall_lookup in Hu. exact (Hu _ _ Hc). }
    destruct Hb' as [[Hx ->] | ->].
    + split.
      * unfold goals_fixed. rewrite goals_write_colors. exact Hg.
      * apply marks_unique_write_colors; [exact Hu|].
        apply NoDup_app. repeat split; [exact Hnd| |apply NoDup_singleton].
        intros y Hy Hy'. apply list_elem_of_singleton in Hy'. subst. contradiction.
    + split.
      * unfold goals_fixed. rewrite goals_write_colors. exact Hg.
      * apply marks_unique_write_colors; [exact Hu|]. apply NoDup_filter, Hnd.
Qed.

(** ** Marks as insertions into a set *)

Lemma elem_of_pushed (x y : string) (cs : list string) :
  y ∈ (if bool_decide (x ∈ cs) then cs else cs ++ [x]) <-> y = x \/ y ∈ cs.
Proof.
  destruct (bool_decide (x ∈ cs)) eqn:Hx.
  - apply bool_decide_eq_true_1 in Hx. split; [tauto|]. intros [->|H]; assumption.
  - rewrite elem_of_app, list_elem_of_singleton. tauto.
Qed.

(** One mark on an in-bounds cell: the handler returns, the cell holds the
    color once more than before unless it held it already, and in that case
    the whole room is as it was. *)
Lemma mark_step ws message identity r c cell rm :
  decodes_at message "mark" identity r c ->
  cell_at (board rm) r c = Some cell ->
  exists rm' cell',
    on_message ws message rm = Returned tt rm' /\
    cell_at (board rm') r c = Some cell' /\
    colors cell' =
      (if bool_decide (color identity ∈ colors cell) then colors cell
       else colors cell ++ [color identity]) /\
    (color identity ∈ colors cell -> rm' = rm).
Proof.
  intros (payload & Hd & Hrow & Hcol) Hcell.
  destruct (on_message_decoded ws _ _ _ _ rm Hd) as (action & _ & Hn & Hp & Hdis & ->).
  rewrite Hdis. cbn [String.eqb Ascii.eqb Bool.eqb].
  rewrite case_mark_run; rewrite ?Hp, ?Hrow, ?Hcol; try reflexivity; try assumption.
  rewrite cell_of_num, Hcell.
  destruct (bool_decide (color identity ∈ colors cell)) eqn:Hin.
  - exists rm, cell. repeat split; try reflexivity; assumption.
  - apply bool_decide_eq_false_1 in Hin.
    eexists _, (set_colors (colors cell ++ [color identity]) cell).
    split; [reflexivity|]. cbn [room_after with_wire with_board board].
    split; [|split; [reflexivity|intros; contradiction]].
    rewrite <- cell_of_num. apply cell_of_write_colors. rewrite cell_of_num. exact Hcell.
Qed.

(** C5: in every room the handlers can produce no cell holds a color twice;
    and for in-bounds (r,c) and identities of different colors, marking
    (r,c) with the one and then the other leaves both colors on the cell, in
    either order the same set of colors, while marking with the first a
    second time leaves the room as the first mark left it. *)
Theorem marks_form_a_set rm :
  reachable JSON_parse verifyRoomToken rm ->
  marks_unique (board rm) /\
  forall ws1 ws2 m1 m2 id1 id2 r c,
    0 <= r < boardHeight -> 0 <= c < boardWidth ->
    color id1 ≠ color id2 ->
    decodes_at m1 "mark" id1 r c ->
    decodes_at m2 "mark" id2 r c ->
    exists rm1 rm12 rm2 rm21 cell12 cell21,
      on_message ws1 m1 rm = Returned tt rm1 /\
      on_message ws2 m2 rm1 = Returned tt rm12 /\
      on_message ws2 m2 rm = Returned tt rm2 /\
      on_message ws1 m1 rm2 = Returned tt rm21 /\
      cell_at (board rm12) r c = Some cell12 /\
      cell_at (board rm21) r c = Some cell21 /\
      color id1 ∈ colors cell12 /\ color id2 ∈ colors cell12 /\
      color id1 ∈ colors cell21 /\ color id2 ∈ colors cell21 /\
      (forall x, x ∈ colors cell12 <-> x ∈ colors cell21) /\
      NoDup (colors cell12) /\ NoDup (colors cell21) /\
      on_message ws1 m1 rm1 = Returned tt rm1.
Proof.
  intros Hreach. destruct (reachable_invariant _ Hreach) as [Hg Hu].
  split; [exact Hu|].
  intros ws1 ws2 m1 m2 id1 id2 r c Hr Hc Hne Hm1 Hm2.
  destruct (proj2 (goals_fixed_in_bounds _ r c Hg) (conj Hr Hc)) as [cell Hcell].
  destruct (mark_step ws1 _ _ _ _ _ _ Hm1 Hcell) as (rm1 & cell1 & E1 & Hc1 & Hcs1 & _).
  destruct (mark_step ws2 _ _ _ _ _ _ Hm2 Hc1) as (rm12 & cell12 & E12 & Hc12 & Hcs12 & _).
  destruct (mark_step ws2 _ _ _ _ _ _ Hm2 Hcell) as (rm2 & cell2 & E2 & Hc2 & Hcs2 & _).
  destruct (mark_step ws1 _ _ _ _ _ _ Hm1 Hc2) as (rm21 & cell21 & E21 & Hc21 & Hcs21 & _).
  destruct (mark_step ws1 _ _ _ _ _ _ Hm1 Hc1) as (rm11 & cell11 & E11 & _ & _ & Hsame).
  assert (Hin1 : color id1 ∈ colors cell1).
  { rewrite Hcs1. apply elem_of_pushed. left; reflexivity. }
  assert (Hmem12 : forall x, x ∈ colors cell12 <-> x = color id2 \/ x = color id1 \/ x ∈ colors cell).
  { intros x. rewrite Hcs12, elem_of_pushed, Hcs1, elem_of_pushed. reflexivity. }
  assert (Hmem21 : forall x, x ∈ colors cell21 <-> x = color id1 \/ x = color id2 \/ x ∈ colors cell).
  { intros x. rewrite Hcs21, elem_of_pushed, Hcs2, elem_of_pushed. reflexivity. }
  assert (Hnd : forall rm' cell', reachable JSON_parse verifyRoomToken rm' ->
             cell_at (board rm') r c = Some cell' -> NoDup (colors cell')).
  { intros rm' cell' Hreach' Hcell'.
    destruct (reachable_invariant _ Hreach') as [_ Hu'].
    rewrite <- cell_of_num in Hcell'.
    destruct (cell_of_inv _ _ _ _ Hcell') as (i & cells & j & _ & Hcells & _ & Hj).
    unfold marks_unique in Hu'. rewrite Forall_lookup in Hu'.
    specialize (Hu' _ _ Hcells). rewrite Forall_lookup in Hu'. exact (Hu' _ _ Hj). }
  assert (Hstep : forall rm0 ws m rm', reachable JSON_parse verifyRoomToken rm0 ->
             on_message ws m rm0 = Returned tt rm' ->
             reachable JSON_parse verifyRoomToken rm').
  { intros rm0 ws m rm' Hreach0 E.
    pose proof (reachable_event JSON_parse verifyRoomToken rm0 (Message ws m) Hreach0) as Hnext.
    cbn [handle] in Hnext. rewrite E in Hnext. exact Hnext. }
  exists rm1, rm12, rm2, rm21, cell12, cell21.
  repeat split; try assumption.
  - apply Hmem12. tauto.
  - apply Hmem12. tauto.
  - apply Hmem21. tauto.
  - apply Hmem21. tauto.
  - rewrite Hmem12, Hmem21. tauto.
  - rewrite Hmem12, Hmem21. tauto.
  - apply (Hnd rm12); [|exact Hc12]. eauto.
  - apply (Hnd rm21); [|exact Hc21]. eauto.
  - rewrite E11. f_equal. apply Hsame, Hin1.
Qed.

End Run.

(** ** The handler on concrete frames *)

(** C1: the frame is parsed before the [try] is entered.  When
    [JSON.parse] rejects it the [SyntaxError] is therefore not caught: it
    leaves the message handler with the room untouched, instead of being
    turned into a silent drop.  Only once the frame has parsed does the
    [catch] cover everything, and the handler returns. *)
Theorem syntax_error_leaves_the_handler JSON_parse verifyRoomToken ws message rm :
  (JSON_parse message = None ->
     Handlers.on_message JSON_parse verifyRoomToken ws message rm
       = Thrown SyntaxError rm) /\
  (forall action, JSON_parse message = Some action ->
     exists rm',
       Handlers.on_message JSON_parse verifyRoomToken ws message rm = Returned tt rm').
Proof.
  split.
  - apply on_message_syntax_error.
  - intros action Hparse. exact (on_message_returns _ _ ws _ _ rm Hparse).
Qed.

(** The frame [{] is not JSON. *)
Lemma syntax_error_leaves_the_handler_witness :
  JSONText.JSON_parse "{" = None /\
  Demo.on_message 1 "{" Demo.lobby = Thrown SyntaxError Demo.lobby.
Proof.
  split; [reflexivity|].
  apply (proj1 (syntax_error_leaves_the_handler
                  JSONText.JSON_parse Demo.verifyRoomToken 1 "{" Demo.lobby)).
  reflexivity.
Defined.

(** Frames that parse but are no action are dropped inside the [try]:
    [null] fails on its first property read, and an object without a token
    is refused by the resolver. *)
Example shapeless_frames_are_dropped :
  Demo.on_message 1 "null" Demo.lobby = Returned tt Demo.lobby /\
  Demo.on_message 1 "{}" Demo.lobby = Returned tt Demo.lobby /\
  Demo.on_message 1 "[1, 2]" Demo.lobby = Returned tt Demo.lobby.
Proof. repeat split; reflexivity. Qed.

Lemma unresolved_token_is_dropped_witness :
  Demo.verifyRoomToken (JStr "nobody") = None /\
  Demo.on_message 1 Demo.mark_x_00 Demo.marked = Returned tt Demo.marked.
Proof.
  split; [reflexivity|].
  eapply (unresolved_token_is_dropped JSONText.JSON_parse Demo.verifyRoomToken
            1 Demo.mark_x_00 _ Demo.marked); reflexivity.
Defined.

(** C3 as stated fails: ann's color is on cell (0,0) of [Demo.marked] and
    sockets 1 and 2 are open, yet her second mark of (0,0) adds no
    cellUpdate and no chat to the wire. *)
Lemma repeated_mark_counterexample :
  decodes_at JSONText.JSON_parse Demo.verifyRoomToken Demo.mark_a_00 "mark"
    (mkIdentity "ann" "red") 0 0 /\
  cell_at (board Demo.marked) 0 0 = Some (mkCell "Collect 5 things" ["red"]) /\
  clients Demo.marked = [mkWebSocket 1 OPEN; mkWebSocket 2 OPEN] /\
  ~ (exists rm' cell text,
       Demo.on_message 1 Demo.mark_a_00 Demo.marked = Returned tt rm' /\
       board rm' = board Demo.marked /\
       wire rm' =
         wire Demo.marked
           ++ broadcast (cellUpdate (JNum 0) (JNum 0) cell) (clients Demo.marked)
           ++ broadcast (chat text) (clients Demo.marked)).
Proof.
  split; [|split; [reflexivity|split; [reflexivity|]]].
  - exists (JObj [("row", JNum 0); ("col", JNum 0)]). repeat split; reflexivity.
  - intros (rm' & cell & text & Hrun & _ & Hwire).
    assert (Hsame : Demo.on_message 1 Demo.mark_a_00 Demo.marked = Returned tt Demo.marked)
      by reflexivity.
    rewrite Hsame in Hrun. injection Hrun as <-.
    apply (f_equal (@length _)) in Hwire. vm_compute in Hwire. discriminate.
Qed.

Lemma mark_of_present_color_emits_nothing_witness :
  exists rm',
    Demo.on_message 1 Demo.mark_a_00 Demo.marked = Returned tt rm' /\
    board rm' = board Demo.marked /\ wire rm' = wire Demo.marked.
Proof.
  apply (mark_of_present_color_emits_nothing JSONText.JSON_parse Demo.verifyRoomToken
           1 Demo.mark_a_00 (mkIdentity "ann" "red") 0 0
           (mkCell "Collect 5 things" ["red"]) Demo.marked).
  - exists (JObj [("row", JNum 0); ("col", JNum 0)]). repeat split; reflexivity.
  - reflexivity.
  - vm_compute. apply list_elem_of_here.
Defined.

Lemma mark_of_present_color_is_dropped_witness :
  "red" ∈ colors (mkCell "Collect 5 things" ["red"]) /\
  Demo.on_message 2 Demo.mark_a_00 Demo.marked = Returned tt Demo.marked.
Proof.
  assert (Hin : "red" ∈ colors (mkCell "Collect 5 things" ["red"]))
    by (simpl; apply list_elem_of_here).
  split; [exact Hin|].
  apply (mark_of_present_color_is_dropped JSONText.JSON_parse Demo.verifyRoomToken
           2 Demo.mark_a_00 (mkIdentity "ann" "red") 0 0
           (mkCell "Collect 5 things" ["red"]) Demo.marked).
  - exists (JObj [("row", JNum 0); ("col", JNum 0)]). repeat split; reflexivity.
  - reflexivity.
  - exact Hin.
Defined.

Lemma lobby_reachable : reachable JSONText.JSON_parse Demo.verifyRoomToken Demo.lobby.
Proof.
  exact (reachable_event _ _ _ (Connection 2)
           (reachable_event _ _ _ (Connection 1) (reachable_new _ _ "room" "game" "slug"))).
Qed.

Lemma marks_form_a_set_witness :
  marks_unique (board Demo.lobby) /\
  exists rm1 rm12 rm2 rm21 cell12 cell21,
    Demo.on_message 1 Demo.mark_a_00 Demo.lobby = Returned tt rm1 /\
    Demo.on_message 2 Demo.mark_b_00 rm1 = Returned tt rm12 /\
    Demo.on_message 2 Demo.mark_b_00 Demo.lobby = Returned tt rm2 /\
    Demo.on_message 1 Demo.mark_a_00 rm2 = Returned tt rm21 /\
    cell_at (board rm12) 0 0 = Some cell12 /\
    cell_at (board rm21) 0 0 = Some cell21 /\
    "red" ∈ colors cell12 /\ "blue" ∈ colors cell12 /\
    "red" ∈ colors cell21 /\ "blue" ∈ colors cell21 /\
    (forall x, x ∈ colors cell12 <-> x ∈ colors cell21) /\
    NoDup (colors cell12) /\ NoDup (colors cell21) /\
    Demo.on_message 1 Demo.mark_a_00 rm1 = Returned tt rm1.
Proof.
  destruct (marks_form_a_set JSONText.JSON_parse Demo.verifyRoomToken Demo.lobby
              lobby_reachable) as [Hunique Hmarks].
  split; [exact Hunique|].
  apply (Hmarks 1%nat 2%nat Demo.mark_a_00 Demo.mark_b_00
           (mkIdentity "ann" "red") (mkIdentity "bob" "blue") 0 0).
  - vm_compute. split; [discriminate|reflexivity].
  - vm_compute. split; [discriminate|reflexivity].
  - discriminate.
  - exists (JObj [("row", JNum 0); ("col", JNum 0)]). repeat split; reflexivity.
  - exists (JObj [("row", JNum 0); ("col", JNum 0)]). repeat split; reflexivity.
Defined.

Lemma unmark_removes_own_color_and_broadcasts_witness :
  exists rm',
    Demo.on_message 2 Demo.unmark_b_00 Demo.marked = Returned tt rm' /\
    cell_at (board rm') 0 0 = Some (mkCell "Collect 5 things" ["red"]) /\
    wire rm' =
      wire Demo.marked
        ++ [ (1%nat, cellUpdate (JNum 0) (JNum 0) (Some (mkCell "Collect 5 things" ["red"])));
             (2%nat, cellUpdate (JNum 0) (JNum 0) (Some (mkCell "Collect 5 things" ["red"])));
             (1%nat, chat (JStr "bob is unmarking (0,0)"));
             (2%nat, chat (JStr "bob is unmarking (0,0)")) ].
Proof.
  destruct (unmark_removes_own_color_and_broadcasts
              JSONText.JSON_parse Demo.verifyRoomToken
              2 Demo.unmark_b_00 (mkIdentity "bob" "blue") 0 0
              (mkCell "Collect 5 things" ["red"]) Demo.marked)
    as (rm' & Hrun & Hcell & _ & _ & _ & _ & Hwire).
  - exists (JObj [("row", JNum 0); ("col", JNum 0)]). repeat split; reflexivity.
  - reflexivity.
  - exists rm'. split; [exact Hrun|]. split; [exact Hcell|exact Hwire].
Defined.

Lemma missing_coordinates_are_dropped_witness :
  prop (JObj [("row", JNum 0)]) "col" = JUndefined /\
  Demo.on_message 1 Demo.mark_a_no_col Demo.lobby = Returned tt Demo.lobby.
Proof.
  split; [reflexivity|].
  apply (missing_coordinates_are_dropped JSONText.JSON_parse Demo.verifyRoomToken
           1 Demo.mark_a_no_col "mark" (mkIdentity "ann" "red")
           (JObj [("row", JNum 0)]) Demo.lobby).
  - left. reflexivity.
  - repeat split; reflexivity.
  - right. reflexivity.
Defined.

Lemma join_syncs_sender_then_announces_witness :
  Demo.on_message 2 Demo.join_a Demo.marked =
    Returned tt
      (with_wire
         (wire Demo.marked
            ++ [ (2%nat, syncBoard (board Demo.marked));
                 (1%nat, chat (JStr "ann has joined."));
                 (2%nat, chat (JStr "ann has joined.")) ])
         Demo.marked).
Proof.
  apply (join_syncs_sender_then_announces JSONText.JSON_parse Demo.verifyRoomToken
           2 Demo.join_a (mkIdentity "ann" "red") JUndefined Demo.marked).
  repeat split; reflexivity.
Defined.

Lemma out_of_range_is_caught_and_dropped_witness :
  ~ (0 <= 7 < boardHeight /\ 0 <= 0 < boardWidth) /\
  Demo.on_message 1 Demo.mark_a_70 Demo.marked = Returned tt Demo.marked.
Proof.
  assert (Hout : ~ (0 <= 7 < boardHeight /\ 0 <= 0 < boardWidth))
    by (vm_compute; intros [[_ H] _]; discriminate).
  split; [exact Hout|].
  apply (out_of_range_is_caught_and_dropped JSONText.JSON_parse Demo.verifyRoomToken
           1 Demo.mark_a_70 "mark" (mkIdentity "ann" "red") 7 0 Demo.marked).
  - left. reflexivity.
  - reflexivity.
  - exists (JObj [("row", JNum 7); ("col", JNum 0)]). repeat split; reflexivity.
  - exact Hout.
Defined.

Lemma chat_is_broadcast_unguarded_witness :
  Demo.on_message 1 Demo.chat_a_empty Demo.lobby =
    Returned tt
      (with_wire
         (wire Demo.lobby ++ [(1%nat, chat JUndefined); (2%nat, chat JUndefined)])
         Demo.lobby).
Proof.
  apply (chat_is_broadcast_unguarded JSONText.JSON_parse Demo.verifyRoomToken
           1 Demo.chat_a_empty (mkIdentity "ann" "red") (JObj []) Demo.lobby).
  - repeat split; reflexivity.
  - reflexivity.
Defined.

(** C10 as stated fails: the token of this chat resolves and sockets 1 and
    2 are open, but the frame has no payload; reading [message] of
    [undefined] throws inside the [try], and no chat is added to the
    wire. *)
Lemma chat_without_payload_counterexample :
  decodes JSONText.JSON_parse Demo.verifyRoomToken Demo.chat_a_bare "chat"
    (mkIdentity "ann" "red") JUndefined /\
  clients Demo.lobby = [mkWebSocket 1 OPEN; mkWebSocket 2 OPEN] /\
  Handlers.dispatch Demo.verifyRoomToken 1 Demo.chat_a_bare
      (JObj [("action", JStr "chat"); ("authToken", JStr "token-a")]) Demo.lobby
    = Thrown TypeError Demo.lobby /\
  ~ (exists rm' text,
       Demo.on_message 1 Demo.chat_a_bare Demo.lobby = Returned tt rm' /\
       wire rm' = wire Demo.lobby ++ broadcast (chat text) (clients Demo.lobby)).
Proof.
  split; [repeat split; reflexivity|].
  split; [reflexivity|]. split; [reflexivity|].
  intros (rm' & text & Hrun & Hwire).
  assert (Hsame : Demo.on_message 1 Demo.chat_a_bare Demo.lobby = Returned tt Demo.lobby)
    by reflexivity.
  rewrite Hsame in Hrun. injection Hrun as <-.
  apply (f_equal (@length _)) in Hwire. vm_compute in Hwire. discriminate.
Qed.

(** A chat that supplies its message is broadcast with exactly that
    string; one without any payload throws on the read of [message] and is
    dropped. *)
Example chat_frames :
  wire (room_after (Demo.on_message 1 Demo.chat_a_hello Demo.lobby)) =
    wire Demo.lobby ++ [(1%nat, chat (JStr "hello")); (2%nat, chat (JStr "hello"))] /\
  Demo.on_message 1 Demo.chat_a_bare Demo.lobby = Returned tt Demo.lobby.
Proof. split; reflexivity. Qed.

(** * More of the room *)

(** ** Keys that name no element, and keys that name one by their text *)

Lemma string_of_Z_numeral (z : Z) :
  NilZero.int_of_string (string_of_Z z) = Some (Z.to_int z).
Proof.
  unfold string_of_Z. apply NilZero.isi.
  - destruct z as [|p|p]; simpl; try discriminate.
    intros [= Hp]. exact (DecimalPos.Unsigned.to_uint_nonnil p Hp).
  - destruct z as [|p|p]; simpl; try discriminate.
    intros [= Hp]. exact (DecimalPos.Unsigned.to_uint_nonnil p Hp).
Qed.

(** A key whose text is no numeral names no element of any array. *)
Lemma array_index_not_numeral (len : nat) (v : jsval) :
  NilZero.int_of_string (ToString v) = None -> array_index len v = None.
Proof.
  intros Hv. unfold array_index.
  destruct (find _ _) as [i|] eqn:Hf; [|reflexivity].
  apply find_some in Hf as [_ Hf]. apply String.eqb_eq in Hf.
  rewrite <- Hf, string_of_Z_numeral in Hv. discriminate.
Qed.

Lemma cell_of_null (b : Board) (row col : jsval) :
  row = JNull \/ col = JNull -> cell_of b row col = None.
Proof.
  unfold cell_of, element. intros [-> | ->].
  - rewrite array_index_not_numeral by reflexivity. reflexivity.
  - destruct (array_index (length b) row) as [i|]; [|reflexivity].
    destruct (b !! i) as [cells|]; [|reflexivity].
    rewrite array_index_not_numeral by reflexivity. reflexivity.
Qed.

(** The element a key names depends on the key's text only. *)
Lemma array_index_text (len : nat) (v : jsval) (z : Z) :
  ToString v = string_of_Z z -> array_index len v = array_index len (JNum z).
Proof. unfold array_index. simpl. intros ->. reflexivity. Qed.

Lemma cell_of_text (b : Board) (row col : jsval) (r c : Z) :
  ToString row = string_of_Z r -> ToString col = string_of_Z c ->
  cell_of b row col = cell_at b r c.
Proof.
  intros Hr Hc. rewrite <- cell_of_num. unfold cell_of, element.
  rewrite (array_index_text _ _ _ Hr).
  destruct (array_index (length b) (JNum r)) as [i|]; [|reflexivity].
  destruct (b !! i) as [cells|]; [|reflexivity].
  rewrite (array_index_text _ _ _ Hc). reflexivity.
Qed.

Lemma write_colors_text (b : Board) (row col : jsval) (r c : Z) (cs : list string) :
  ToString row = string_of_Z r -> ToString col = string_of_Z c ->
  write_colors row col cs b = write_colors (JNum r) (JNum c) cs b.
Proof.
  intros Hr Hc. unfold write_colors. rewrite (array_index_text _ _ _ Hr).
  destruct (array_index (length b) (JNum r)) as [i|]; [|reflexivity].
  destruct (b !! i) as [cells|]; [|reflexivity].
  rewrite (array_index_text _ _ _ Hc). reflexivity.
Qed.

Lemma numeral_is_defined (v : jsval) (z : Z) :
  ToString v = string_of_Z z -> is_undefined v = false.
Proof.
  destruct v; try reflexivity. simpl. intros H.
  pose proof (string_of_Z_numeral z) as Hz. rewrite <- H in Hz. discriminate.
Qed.

(** ** Writing a cell twice, and writing what it holds *)

Lemma write_colors_twice (b : Board) (row col : jsval) (cell : Cell) (cs1 cs2 : list string) :
  cell_of b row col = Some cell ->
  write_colors row col cs2 (write_colors row col cs1 b) = write_colors row col cs2 b.
Proof.
  intros H. destruct (cell_of_inv _ _ _ _ H) as (i & cells & j & Hi & Hcells & Hj & Hcell).
  rewrite (write_colors_alter b _ _ _ _ _ cs1 Hi Hcells Hj).
  rewrite (write_colors_alter b _ _ _ _ _ cs2 Hi Hcells Hj).
  assert (Hcells' : alter (alter (set_colors cs1) j) i b !! i = Some (alter (set_colors cs1) j cells))
    by (rewrite list_lookup_alter_eq, Hcells; reflexivity).
  rewrite (write_colors_alter _ row col i (alter (set_colors cs1) j cells) j cs2);
    [|rewrite length_alter; exact Hi|exact Hcells'|rewrite length_alter; exact Hj].
  rewrite list_alter_alter_eq. apply list_alter_ext; [|reflexivity].
  intros cells0 _. simpl. rewrite list_alter_alter_eq.
  apply list_alter_ext; [|reflexivity]. intros cell0 _. reflexivity.
Qed.

Lemma write_colors_same (b : Board) (row col : jsval) (cell : Cell) :
  cell_of b row col = Some cell ->
  write_colors row col (colors cell) b = b.
Proof.
  intros H. destruct (cell_of_inv _ _ _ _ H) as (i & cells & j & Hi & Hcells & Hj & Hcell).
  rewrite (write_colors_alter b _ _ _ _ _ _ Hi Hcells Hj).
  apply list_eq. intros i'. destruct (decide (i' = i)) as [->|Hne].
  - rewrite list_lookup_alter_eq, Hcells. simpl. f_equal.
    apply list_eq. intros j'. destruct (decide (j' = j)) as [->|Hne].
    + rewrite list_lookup_alter_eq, Hcell. simpl. destruct cell; reflexivity.
    + rewrite list_lookup_alter_ne by congruence. reflexivity.
  - rewrite list_lookup_alter_ne by congruence. reflexivity.
Qed.

(** A write changes the cell it names and no other. *)
Lemma cell_at_write_colors_cases (b : Board) (row col : jsval) (cell : Cell)
    (cs : list string) (r c : Z) :
  cell_of b row col = Some cell ->
  cell_at (write_colors row col cs b) r c = cell_at b r c \/
  (cell_at b r c = Some cell /\
   cell_at (write_colors row col cs b) r c = Some (set_colors cs cell)).
Proof.
  intros H. destruct (cell_of_inv _ _ _ _ H) as (i & cells & j & Hi & Hcells & Hj & Hcell).
  rewrite (write_colors_alter b _ _ _ _ _ _ Hi Hcells Hj).
  unfold cell_at. destruct ((0 <=? r) && (0 <=? c)); [|left; reflexivity].
  destruct (decide (Z.to_nat r = i)) as [->|Hr].
  - rewrite list_lookup_alter_eq, Hcells. simpl.
    destruct (decide (Z.to_nat c = j)) as [->|Hc].
    + right. rewrite list_lookup_alter_eq, Hcell. split; reflexivity.
    + left. rewrite list_lookup_alter_ne by congruence. reflexivity.
  - left. rewrite list_lookup_alter_ne by congruence. reflexivity.
Qed.

Lemma cell_of_is_cell_at (b : Board) (row col : jsval) (cell : Cell) :
  cell_of b row col = Some cell -> exists r c, cell_at b r c = Some cell.
Proof.
  intros H. destruct (cell_of_inv _ _ _ _ H) as (i & cells & j & _ & Hcells & _ & Hcell).
  exists (Z.of_nat i), (Z.of_nat j). unfold cell_at.
  replace (0 <=? Z.of_nat i) with true by (symmetry; apply Z.leb_le; lia).
  replace (0 <=? Z.of_nat j) with true by (symmetry; apply Z.leb_le; lia).
  simpl. rewrite !Nat2Z.id, Hcells. exact Hcell.
Qed.

(** ** Sockets that have started to close *)



Lemma filter_others_closing (ws : nat) (cs : list WebSocket) :
  List.filter (fun client => negb (sock client =? ws)%nat) (map (closing ws) cs) =
  List.filter (fun client => negb (sock client =? ws)%nat) cs.
Proof.
  induction cs as [|client cs IH]; [reflexivity|]. simpl.
  unfold closing at 1 2. destruct (sock client =? ws)%nat eqn:Hs; simpl.
  - destruct (is_open client); simpl; rewrite Hs; simpl; exact IH.
  - rewrite Hs. simpl. f_equal. exact IH.
Qed.

Section More.

Variable JSON_parse : string -> option jsval.
Variable verifyRoomToken : jsval -> option Identity.

Local Abbreviation on_message := (on_message JSON_parse verifyRoomToken).
Local Abbreviation dispatch := (dispatch verifyRoomToken).
Local Abbreviation decodes := (decodes JSON_parse verifyRoomToken).
Local Abbreviation decodes_at := (decodes_at JSON_parse verifyRoomToken).
Local Abbreviation handle := (handle JSON_parse verifyRoomToken).
Local Abbreviation reachable := (reachable JSON_parse verifyRoomToken).

Lemma case_leave_run ws identity rm :
  case_leave ws identity rm =
    Returned tt
      (with_clients (map (closing ws) (clients rm))
         (with_wire
            (wire rm ++ broadcast (chat (JStr (nickname identity +:+ " has left."))) (clients rm))
            rm)).
Proof. reflexivity. Qed.

Lemma unmark_run ws message identity r c cell rm :
  decodes_at message "unmark" identity r c ->
  cell_at (board rm) r c = Some cell ->
  let kept := filter (fun color' => color' ≠ color identity) (colors cell) in
  on_message ws message rm =
    Returned tt
      (with_wire
         (wire rm
            ++ broadcast (cellUpdate (JNum r) (JNum c) (Some (set_colors kept cell))) (clients rm)
            ++ broadcast
                 (chat (JStr (nickname identity +:+ " is unmarking (" +:+ string_of_Z r
                                +:+ "," +:+ string_of_Z c +:+ ")")))
                 (clients rm))
         (with_board (write_colors (JNum r) (JNum c) kept (board rm)) rm)).
Proof.
  intros (payload & Hd & Hrow & Hcol) Hcell kept.
  destruct (on_message_decoded _ _ ws _ _ _ _ rm Hd) as (action & _ & Hn & Hp & Hdis & ->).
  f_equal. rewrite Hdis. cbn [String.eqb Ascii.eqb Bool.eqb].
  rewrite case_unmark_run; rewrite ?Hp, ?Hrow, ?Hcol; try reflexivity; try assumption.
  rewrite cell_of_num, Hcell. reflexivity.
Qed.

(** X1: a mark with a valid token of a color the in-bounds cell does not
    hold pushes the color onto the end of that cell's colors, leaves every
    other cell and the sockets as they were, and broadcasts a cellUpdate
    carrying the cell as it is after the push, followed by the chat line
    "<nickname> is marking (row,col)". *)
Theorem mark_pushes_color_and_broadcasts ws message identity r c cell rm :
  decodes_at message "mark" identity r c ->
  cell_at (board rm) r c = Some cell ->
  color identity ∉ colors cell ->
  let marked := set_colors (colors cell ++ [color identity]) cell in
  exists rm',
    on_message ws message rm = Returned tt rm' /\
    cell_at (board rm') r c = Some marked /\
    (forall r' c', (r', c') <> (r, c) ->
       cell_at (board rm') r' c' = cell_at (board rm) r' c') /\
    clients rm' = clients rm /\
    wire rm' =
      wire rm
        ++ broadcast (cellUpdate (JNum r) (JNum c) (Some marked)) (clients rm)
        ++ broadcast
             (chat (JStr (nickname identity +:+ " is marking (" +:+ string_of_Z r
                            +:+ "," +:+ string_of_Z c +:+ ")")))
             (clients rm).
Proof.
  intros Hd Hcell Habsent marked.
  eexists. split; [apply (mark_of_absent_color _ _ ws _ _ _ _ _ _ Hd Hcell Habsent)|].
  cbn [with_wire with_board board clients wire]. repeat split.
  - rewrite <- cell_of_num. apply cell_of_write_colors. rewrite cell_of_num. exact Hcell.
  - intros r' c' Hne. apply cell_at_write_colors_other. exact Hne.
Qed.


(** X3: the [switch] has no default.  An action whose token resolves but
    whose [action] is none of join, leave, mark, unmark and chat (or is no
    string at all) does nothing: nothing is sent and the room is as it
    was. *)
Theorem unknown_action_does_nothing ws message action identity rm :
  JSON_parse message = Some action ->
  verifyRoomToken (prop action "authToken") = Some identity ->
  (forall kind, prop action "action" = JStr kind ->
     kind ∉ ["join"; "leave"; "mark"; "unmark"; "chat"]) ->
  on_message ws message rm = Returned tt rm.
Proof.
  intros Hparse Hv Hkind.
  rewrite (on_message_parsed _ _ _ _ _ _ Hparse), try_catch_return_room. f_equal.
  unfold Handlers.dispatch, getProp, verify.
  destruct (nullish action); [reflexivity|].
  unfold bind at 1, ret at 1; cbv beta iota. rewrite Hv.
  unfold bind at 1, ret at 1; cbv beta iota. unfold bind at 1, ret at 1; cbv beta iota.
  destruct (prop action "action") as [| | | |kind| |]; try reflexivity.
  specialize (Hkind kind eq_refl).
  assert (Hne : forall k, k ∈ ["join"; "leave"; "mark"; "unmark"; "chat"] ->
                          String.eqb kind k = false).
  { intros k Hk. apply String.eqb_neq. intros ->. contradiction. }
  rewrite !Hne by (repeat (apply list_elem_of_here || apply list_elem_of_further)).
  reflexivity.
Qed.

(** ** Everything the body of the [try] can do to the room *)

Lemma with_wire_nil (rm : Room) : with_wire (wire rm ++ []) rm = rm.
Proof. destruct rm. unfold with_wire. simpl. rewrite app_nil_r. reflexivity. Qed.

(** It extends the wire and nothing else; or it is an authenticated leave,
    which also closes the sender; or it is an authenticated mark or unmark
    of a cell of the board, which also rewrites that cell's colors. *)
Lemma dispatch_cases ws message action rm :
  let rm' := room_after (dispatch ws message action rm) in
  (exists w, rm' = with_wire (wire rm ++ w) rm) \/
  (exists identity w,
     verifyRoomToken (prop action "authToken") = Some identity /\
     prop action "action" = JStr "leave" /\
     rm' = with_clients (map (closing ws) (clients rm)) (with_wire (wire rm ++ w) rm)) \/
  (exists identity row col cell cs w,
     verifyRoomToken (prop action "authToken") = Some identity /\
     cell_of (board rm) row col = Some cell /\
     rm' = with_wire (wire rm ++ w) (with_board (write_colors row col cs (board rm)) rm) /\
     ((prop action "action" = JStr "mark" /\ (color identity ∉ colors cell) /\
       cs = colors cell ++ [color identity]) \/
      (prop action "action" = JStr "unmark" /\
       cs = filter (fun y => y ≠ color identity) (colors cell)))).
Proof.
  intros rm'. subst rm'.
  remember (dispatch ws message action rm) as o eqn:Ho.
  assert (Hsame : forall o', o' = Returned tt rm \/ (exists e, o' = Thrown e rm) ->
            exists w, room_after o' = with_wire (wire rm ++ w) rm).
  { intros o' [-> | [e ->]]; exists []; symmetry; apply with_wire_nil. }
  unfold Handlers.dispatch, getProp in Ho.
  destruct (nullish action) eqn:Hn; [subst o; left; apply Hsame; eauto|].
  unfold bind at 1, ret at 1 in Ho; cbv beta iota in Ho. unfold verify in Ho.
  destruct (verifyRoomToken (prop action "authToken")) as [identity|] eqn:Hv;
    [|subst o; left; apply Hsame; eauto].
  unfold bind at 1, ret at 1 in Ho; cbv beta iota in Ho.
  unfold bind at 1, ret at 1 in Ho; cbv beta iota in Ho.
  destruct (prop action "action") as [| | | |kind| |] eqn:Hk;
    try (subst o; left; apply Hsame; left; reflexivity).
  destruct (String.eqb kind "join").
  { rewrite case_join_run in Ho. subst o. left. eexists. reflexivity. }
  destruct (String.eqb kind "leave") eqn:Hleave.
  { apply String.eqb_eq in Hleave. subst kind. rewrite case_leave_run in Ho. subst o.
    right. left. exists identity. eexists. repeat split. }
  set (row := prop (prop action "payload") "row").
  set (col := prop (prop action "payload") "col").
  destruct (String.eqb kind "mark") eqn:Hmark.
  { apply String.eqb_eq in Hmark. subst kind.
    destruct (is_undefined row || is_undefined col) eqn:Hu.
    - subst o. left. rewrite (case_mark_missing _ _ _ Hu).
      exists []. symmetry. apply with_wire_nil.
    - apply orb_false_iff in Hu as [Hrow Hcol].
      rewrite case_mark_run in Ho by assumption. fold row col in Ho.
      destruct (cell_of (board rm) row col) as [cell|] eqn:Hcell;
        [|subst o; left; apply Hsame; eauto].
      destruct (bool_decide (color identity ∈ colors cell)) eqn:Hin;
        [subst o; left; apply Hsame; eauto|].
      apply bool_decide_eq_false_1 in Hin. subst o.
      right. right. exists identity, row, col, cell. do 2 eexists.
      split; [reflexivity|]. split; [exact Hcell|]. split; [reflexivity|].
      left. repeat split. exact Hin. }
  destruct (String.eqb kind "unmark") eqn:Hunmark.
  { apply String.eqb_eq in Hunmark. subst kind.
    destruct (is_undefined row || is_undefined col) eqn:Hu.
    - subst o. left. rewrite (case_unmark_missing _ _ _ Hu).
      exists []. symmetry. apply with_wire_nil.
    - apply orb_false_iff in Hu as [Hrow Hcol].
      rewrite case_unmark_run in Ho by assumption. fold row col in Ho.
      destruct (cell_of (board rm) row col) as [cell|] eqn:Hcell;
        [|subst o; left; apply Hsame; eauto].
      subst o. right. right. exists identity, row, col, cell. do 2 eexists.
      split; [reflexivity|]. split; [exact Hcell|]. split; [reflexivity|].
      right. split; reflexivity. }
  destruct (String.eqb kind "chat"); [|subst o; left; apply Hsame; eauto].
  rewrite case_chat_run in Ho by exact Hn.
  destruct (nullish (prop action "payload")); subst o; left.
  - apply Hsame; eauto.
  - eexists. reflexivity.
Qed.

Lemma handle_board_cases ev rm :
  let b' := board (room_after (handle ev rm)) in
  b' = board rm \/
  exists ws message action identity row col cell cs,
    ev = Message ws message /\
    JSON_parse message = Some action /\
    verifyRoomToken (prop action "authToken") = Some identity /\
    cell_of (board rm) row col = Some cell /\
    b' = write_colors row col cs (board rm) /\
    ((prop action "action" = JStr "mark" /\ (color identity ∉ colors cell) /\
      cs = colors cell ++ [color identity]) \/
     (prop action "action" = JStr "unmark" /\
      cs = filter (fun y => y ≠ color identity) (colors cell))).
Proof.
  destruct ev as [ws|ws message|ws|]; try (left; reflexivity).
  cbn [Handlers.handle]. destruct (JSON_parse message) as [action|] eqn:Hparse.
  - rewrite (on_message_parsed _ _ _ _ _ _ Hparse), try_catch_return_room.
    cbn [room_after].
    destruct (dispatch_cases ws message action rm)
      as [[w ->] | [(identity & w & _ & _ & ->)
                   | (identity & row & col & cell & cs & w & Hv & Hcell & -> & Hkind)]].
    + left. reflexivity.
    + left. reflexivity.
    + right. exists ws, message, action, identity, row, col, cell, cs.
      repeat split; assumption.
  - rewrite (on_message_syntax_error _ _ _ _ _ Hparse). left. reflexivity.
Qed.

(** X4: the board changes only through a frame that parses to a mark or an
    unmark whose token resolves.  No other frame and no connection or close
    event alters any cell; and where such a mark or unmark does, every cell
    keeps its goal, and its colors other than the sender's own stay exactly
    as they were. *)
Theorem board_changes_only_by_authenticated_marks ev rm :
  board (room_after (handle ev rm)) ≠ board rm ->
  exists ws message action identity,
    ev = Message ws message /\
    JSON_parse message = Some action /\
    verifyRoomToken (prop action "authToken") = Some identity /\
    (prop action "action" = JStr "mark" \/ prop action "action" = JStr "unmark") /\
    forall r c,
      cell_at (board (room_after (handle ev rm))) r c = cell_at (board rm) r c \/
      exists cell cell',
        cell_at (board rm) r c = Some cell /\
        cell_at (board (room_after (handle ev rm))) r c = Some cell' /\
        goal cell' = goal cell /\
        forall x, x ≠ color identity -> (x ∈ colors cell' <-> x ∈ colors cell).
Proof.
  intros Hchanged.
  destruct (handle_board_cases ev rm)
    as [Hsame | (ws & message & action & identity & row & col & cell & cs
                 & -> & Hparse & Hv & Hcell & Hb' & Hkind)];
    [contradiction|].
  exists ws, message, action, identity. repeat split; try assumption.
  - destruct Hkind as [(Hk & _) | (Hk & _)]; [left|right]; exact Hk.
  - intros r c. rewrite Hb'.
    destruct (cell_at_write_colors_cases (board rm) row col cell cs r c Hcell)
      as [Heq | [Hold Hnew]]; [left; exact Heq|].
    right. exists cell, (set_colors cs cell). repeat split; try assumption.
    + destruct Hkind as [(_ & _ & ->) | (_ & ->)]; simpl.
      * rewrite elem_of_app, list_elem_of_singleton. tauto.
      * rewrite list_elem_of_filter. tauto.
    + destruct Hkind as [(_ & _ & ->) | (_ & ->)]; simpl.
      * rewrite elem_of_app. tauto.
      * rewrite list_elem_of_filter. tauto.
Qed.

(** X5: every color on a board the handlers can produce is the color of an
    identity the resolver returns for some token: nothing is ever marked in
    a color that was not authenticated. *)
Theorem colors_on_board_are_authenticated rm :
  reachable rm ->
  forall r c cell x,
    cell_at (board rm) r c = Some cell -> x ∈ colors cell ->
    exists token identity,
      verifyRoomToken token = Some identity /\ color identity = x.
Proof.
  induction 1 as [name game slug|rm ev Hreach IH]; intros r c cell x Hcell Hx.
  - exfalso. cbn [new_Room board] in Hcell. unfold cell_at in Hcell.
    destruct ((0 <=? r) && (0 <=? c)); [|discriminate].
    assert (Hblank : Forall (Forall (fun cell => colors cell = [])) default_board)
      by (unfold default_board, free; repeat constructor).
    destruct (default_board !! Z.to_nat r) as [cells|] eqn:Hcells; [|discriminate].
    rewrite Forall_lookup in Hblank. specialize (Hblank _ _ Hcells).
    rewrite Forall_lookup in Hblank. rewrite (Hblank _ _ Hcell) in Hx.
    apply elem_of_nil in Hx. exact Hx.
  - destruct (handle_board_cases ev rm)
      as [Hsame | (ws & message & action & identity & row & col & cell0 & cs
                   & _ & _ & Hv & Hcell0 & Hb' & Hkind)].
    + rewrite Hsame in Hcell. exact (IH _ _ _ _ Hcell Hx).
    + rewrite Hb' in Hcell.
      destruct (cell_at_write_colors_cases (board rm) row col cell0 cs r c Hcell0)
        as [Heq | [Hold Hnew]].
      * rewrite Heq in Hcell. exact (IH _ _ _ _ Hcell Hx).
      * rewrite Hnew in Hcell. injection Hcell as <-. simpl in Hx.
        destruct Hkind as [(_ & _ & ->) | (_ & ->)].
        -- apply elem_of_app in Hx as [Hx | Hx].
           ++ exact (IH _ _ _ _ Hold Hx).
           ++ apply list_elem_of_singleton in Hx. subst x. eauto.
        -- apply list_elem_of_filter in Hx as [_ Hx]. exact (IH _ _ _ _ Hold Hx).
Qed.

(** X6: on every board the handlers can produce, the cells are those of the
    5 by 5 grid the constructor built and each holds the goal the
    constructor gave it: marks and unmarks never move or rename a goal. *)
Theorem goals_and_shape_never_change rm :
  reachable rm ->
  forall r c,
    (is_Some (cell_at (board rm) r c) <-> 0 <= r < boardHeight /\ 0 <= c < boardWidth) /\
    goal <$> cell_at (board rm) r c = goal <$> cell_at default_board r c.
Proof.
  intros Hreach r c. destruct (reachable_invariant _ _ _ Hreach) as [Hg _].
  split; [apply goals_fixed_in_bounds; exact Hg|].
  unfold goals_fixed in Hg. unfold cell_at.
  destruct ((0 <=? r) && (0 <=? c)); [|reflexivity].
  apply (f_equal (fun g => g !! Z.to_nat r)) in Hg. rewrite !list_lookup_fmap in Hg.
  destruct (board rm !! Z.to_nat r) as [cells|],
           (default_board !! Z.to_nat r) as [cells0|]; simpl in Hg; try discriminate;
    [|reflexivity].
  injection Hg as Hg.
  apply (f_equal (fun g => g !! Z.to_nat c)) in Hg. rewrite !list_lookup_fmap in Hg.
  exact Hg.
Qed.

(** X7: a message never adds or removes a socket, and it changes the state
    of no socket but the one it arrived on (which a leave closes). *)
Theorem message_changes_no_other_socket ws message rm :
  let clients' := clients (room_after (on_message ws message rm)) in
  map sock clients' = map sock (clients rm) /\
  forall i client,
    clients rm !! i = Some client -> sock client <> ws ->
    clients' !! i = Some client.
Proof.
  intros clients'. subst clients'.
  assert (Hclosing : map sock (map (closing ws) (clients rm)) = map sock (clients rm) /\
            forall i client, clients rm !! i = Some client -> sock client <> ws ->
              map (closing ws) (clients rm) !! i = Some client).
  { split.
    - rewrite map_map. apply map_ext. intros client. unfold closing.
      destruct ((sock client =? ws)%nat && is_open client); reflexivity.
    - intros i client Hi Hne. rewrite list_lookup_fmap, Hi. simpl. f_equal.
      unfold closing. apply Nat.eqb_neq in Hne. rewrite Hne. reflexivity. }
  destruct (JSON_parse message) as [action|] eqn:Hparse.
  - rewrite (on_message_parsed _ _ _ _ _ _ Hparse), try_catch_return_room.
    cbn [room_after].
    destruct (dispatch_cases ws message action rm)
      as [[w ->] | [(identity & w & _ & _ & ->)
                   | (identity & row & col & cell & cs & w & _ & _ & -> & _)]];
      cbn [with_wire with_board with_clients clients]; auto.
  - rewrite (on_message_syntax_error _ _ _ _ _ Hparse). cbn [room_after]. auto.
Qed.

(** ** Marks and unmarks composed *)

Lemma filter_pushed (x : string) (cs : list string) :
  filter (fun y => y ≠ x) (cs ++ [x]) = filter (fun y => y ≠ x) cs.
Proof.
  rewrite filter_app, filter_cons_False, filter_nil by (intros H; apply H; reflexivity).
  apply app_nil_r.
Qed.

Lemma filter_filtered (x : string) (cs : list string) :
  filter (fun y => y ≠ x) (filter (fun y => y ≠ x) cs) = filter (fun y => y ≠ x) cs.
Proof. apply filter_absent. rewrite list_elem_of_filter. tauto. Qed.

(** X8: an unmark after a mark of the same cell by the same identity leaves
    the board as the unmark alone would have left it; when the cell did not
    hold the color before, the board is back to what it was. *)
Theorem unmark_undoes_mark ws1 ws2 m u identity r c cell rm :
  decodes_at m "mark" identity r c ->
  decodes_at u "unmark" identity r c ->
  cell_at (board rm) r c = Some cell ->
  exists rm1 rm2,
    on_message ws1 m rm = Returned tt rm1 /\
    on_message ws2 u rm1 = Returned tt rm2 /\
    board rm2 = board (room_after (on_message ws2 u rm)) /\
    (color identity ∉ colors cell -> board rm2 = board rm).
Proof.
  intros Hm Hu Hcell.
  assert (Hcell' : cell_of (board rm) (JNum r) (JNum c) = Some cell)
    by (rewrite cell_of_num; exact Hcell).
  destruct (decide (color identity ∈ colors cell)) as [Hin | Hout].
  - destruct (mark_step _ _ ws1 _ _ _ _ _ _ Hm Hcell) as (rm1 & cell1 & E1 & _ & _ & Hsame).
    rewrite (Hsame Hin) in E1.
    exists rm. eexists. split; [exact E1|]. split; [apply (unmark_run _ _ _ _ _ _ _ Hu Hcell)|].
    split; [|intros; contradiction].
    rewrite (unmark_run ws2 _ _ _ _ _ _ Hu Hcell). reflexivity.
  - pose proof (mark_of_absent_color _ _ ws1 _ _ _ _ _ _ Hm Hcell Hout) as E1.
    cbv zeta in E1. eexists. eexists. split; [exact E1|].
    split.
    + eapply unmark_run; [exact Hu|]. cbn [with_wire with_board board].
      rewrite <- cell_of_num. apply cell_of_write_colors. exact Hcell'.
    + cbn [with_wire with_board board colors set_colors].
      rewrite (write_colors_twice _ _ _ _ _ _ Hcell'), filter_pushed.
      split.
      * rewrite (unmark_run ws2 _ _ _ _ _ _ Hu Hcell). reflexivity.
      * intros _. rewrite (filter_absent _ _ Hout). apply write_colors_same. exact Hcell'.
Qed.

(** X9: a second unmark of the same cell by the same identity changes the
    board no further, yet it is broadcast again: the same cellUpdate and the
    same chat line go out a second time. *)
Theorem second_unmark_only_rebroadcasts ws1 ws2 u identity r c cell rm :
  decodes_at u "unmark" identity r c ->
  cell_at (board rm) r c = Some cell ->
  let kept := set_colors (filter (fun color' => color' ≠ color identity) (colors cell)) cell in
  exists rm1 rm2,
    on_message ws1 u rm = Returned tt rm1 /\
    on_message ws2 u rm1 = Returned tt rm2 /\
    board rm2 = board rm1 /\
    wire rm2 =
      wire rm1
        ++ broadcast (cellUpdate (JNum r) (JNum c) (Some kept)) (clients rm)
        ++ broadcast
             (chat (JStr (nickname identity +:+ " is unmarking (" +:+ string_of_Z r
                            +:+ "," +:+ string_of_Z c +:+ ")")))
             (clients rm).
Proof.
  intros Hu Hcell kept.
  assert (Hcell' : cell_of (board rm) (JNum r) (JNum c) = Some cell)
    by (rewrite cell_of_num; exact Hcell).
  eexists. eexists. split; [apply (unmark_run ws1 _ _ _ _ _ _ Hu Hcell)|].
  split.
  - eapply unmark_run; [exact Hu|]. cbn [with_wire with_board board].
    rewrite <- cell_of_num. apply cell_of_write_colors. exact Hcell'.
  - cbn [with_wire with_board board wire clients colors set_colors goal].
    rewrite filter_filtered. split; [|reflexivity].
    apply (write_colors_twice _ _ _ _ _ _ Hcell').
Qed.

(** X10: a join that follows a mark is answered with the board as the mark
    left it: the syncBoard sent to the joining socket holds the marker's
    color on the marked cell. *)
Theorem join_after_mark_sees_the_mark ws1 ws2 m j marker joiner payload r c cell rm :
  decodes_at m "mark" marker r c ->
  decodes j "join" joiner payload ->
  cell_at (board rm) r c = Some cell ->
  exists rm1 rm2 synced cell',
    on_message ws1 m rm = Returned tt rm1 /\
    on_message ws2 j rm1 = Returned tt rm2 /\
    (ws2, syncBoard synced) ∈ wire rm2 /\
    synced = board rm2 /\
    cell_at synced r c = Some cell' /\
    color marker ∈ colors cell'.
Proof.
  intros Hm Hj Hcell.
  destruct (mark_step _ _ ws1 _ _ _ _ _ _ Hm Hcell) as (rm1 & cell1 & E1 & Hc1 & Hcs1 & _).
  destruct (on_message_decoded _ _ ws2 _ _ _ _ rm1 Hj) as (action & _ & _ & _ & Hdis & E2).
  rewrite Hdis in E2. cbn [String.eqb Ascii.eqb Bool.eqb] in E2.
  rewrite case_join_run in E2. cbn [room_after] in E2.
  exists rm1. eexists. exists (board rm1), cell1.
  split; [exact E1|]. split; [exact E2|].
  cbn [with_wire wire board]. repeat split.
  - rewrite !elem_of_app. right. left. apply list_elem_of_here.
  - exact Hc1.
  - rewrite Hcs1. apply (proj2 (elem_of_pushed JSON_parse _ _ _)). left. reflexivity.
Qed.

(** ** Coordinates that are no numbers *)

(** X11: a JSON [null] for [row] or [col] is not [undefined], so it passes
    the missing-coordinates guard of a mark or unmark; it names no cell, the
    read of the cell throws inside the [try], and the action is dropped
    with the room as it was. *)
Theorem null_coordinates_are_dropped ws message kind identity payload rm :
  kind = "mark" \/ kind = "unmark" ->
  decodes message kind identity payload ->
  prop payload "row" = JNull \/ prop payload "col" = JNull ->
  on_message ws message rm = Returned tt rm /\
  (is_undefined (prop payload "row") = false ->
   is_undefined (prop payload "col") = false ->
   exists action,
     JSON_parse message = Some action /\
     dispatch ws message action rm = Thrown TypeError rm).
Proof.
  intros Hkind Hd Hnull.
  destruct (on_message_decoded _ _ ws _ _ _ _ rm Hd) as (action & Hparse & Hn & Hp & Hdis & ->).
  assert (Hnone : cell_of (board rm) (prop payload "row") (prop payload "col") = None)
    by (apply cell_of_null; exact Hnull).
  assert (Hthrow : is_undefined (prop payload "row") = false ->
                   is_undefined (prop payload "col") = false ->
                   dispatch ws message action rm = Thrown TypeError rm).
  { intros Hrow Hcol. rewrite Hdis.
    destruct Hkind as [-> | ->]; cbn [String.eqb Ascii.eqb Bool.eqb].
    - rewrite case_mark_run; rewrite ?Hp; try assumption. rewrite Hnone. reflexivity.
    - rewrite case_unmark_run; rewrite ?Hp; try assumption. rewrite Hnone. reflexivity. }
  split.
  - f_equal.
    destruct (is_undefined (prop payload "row") || is_undefined (prop payload "col")) eqn:Hu.
    + rewrite Hdis. rewrite <- Hp in Hu.
      destruct Hkind as [-> | ->]; cbn [String.eqb Ascii.eqb Bool.eqb].
      * apply case_mark_missing, Hu.
      * apply case_unmark_missing, Hu.
    + apply orb_false_iff in Hu as [Hrow Hcol]. rewrite (Hthrow Hrow Hcol). reflexivity.
  - intros Hrow Hcol. exists action. split; [exact Hparse|exact (Hthrow Hrow Hcol)].
Qed.

(** X12: the handler does not check that [row] and [col] are numbers; it
    addresses the cell by the text of the key.  A mark whose [row] and [col]
    are any values whose text is the numeral of an in-bounds position (the
    number, the numeral as a string, a one-element array of either) marks
    that cell, announces it with the same chat line, and echoes the values
    as they were sent in the cellUpdate. *)
Theorem mark_addresses_cell_by_key_text ws message identity payload r c cell rm :
  decodes message "mark" identity payload ->
  ToString (prop payload "row") = string_of_Z r ->
  ToString (prop payload "col") = string_of_Z c ->
  cell_at (board rm) r c = Some cell ->
  color identity ∉ colors cell ->
  let marked := set_colors (colors cell ++ [color identity]) cell in
  exists rm',
    on_message ws message rm = Returned tt rm' /\
    cell_at (board rm') r c = Some marked /\
    wire rm' =
      wire rm
        ++ broadcast (cellUpdate (prop payload "row") (prop payload "col") (Some marked))
             (clients rm)
        ++ broadcast
             (chat (JStr (nickname identity +:+ " is marking (" +:+ string_of_Z r
                            +:+ "," +:+ string_of_Z c +:+ ")")))
             (clients rm).
Proof.
  intros Hd Hrow Hcol Hcell Hout marked.
  destruct (on_message_decoded _ _ ws _ _ _ _ rm Hd) as (action & _ & Hn & Hp & Hdis & ->).
  eexists. split; [reflexivity|]. rewrite Hdis. cbn [String.eqb Ascii.eqb Bool.eqb].
  rewrite case_mark_run; rewrite ?Hp;
    try assumption; try (eapply numeral_is_defined; eassumption).
  rewrite (cell_of_text _ _ _ _ _ Hrow Hcol), Hcell.
  rewrite bool_decide_eq_false_2 by assumption.
  cbn [room_after with_wire with_board board wire]. rewrite Hrow, Hcol. split; [|reflexivity].
  rewrite (write_colors_text _ _ _ _ _ _ Hrow Hcol).
  rewrite <- cell_of_num. apply cell_of_write_colors. rewrite cell_of_num. exact Hcell.
Qed.

(** ** [sendCellUpdate] on its own *)

(** X13: on a board with the constructor's goals, [sendCellUpdate] throws
    when the row is outside the grid; when the row is inside, it broadcasts
    a cellUpdate carrying the cell, and for a column outside the grid one
    that carries no cell at all, without throwing. *)
Theorem sendCellUpdate_checks_only_the_row r c rm :
  goals_fixed (board rm) ->
  (0 <= r < boardHeight ->
     sendCellUpdate (JNum r) (JNum c) rm =
       Returned tt
         (with_wire
            (wire rm ++ broadcast (cellUpdate (JNum r) (JNum c) (cell_at (board rm) r c))
                          (clients rm))
            rm)) /\
  (~ 0 <= r < boardHeight ->
     sendCellUpdate (JNum r) (JNum c) rm = Thrown TypeError rm) /\
  (~ 0 <= c < boardWidth -> cell_at (board rm) r c = None).
Proof.
  intros Hg.
  assert (Hlen : length (board rm) = 5%nat).
  { apply (f_equal (@length _)) in Hg. rewrite !length_map in Hg. exact Hg. }
  change boardHeight with 5. change boardWidth with 5.
  assert (Hrun : sendCellUpdate (JNum r) (JNum c) rm =
            match (if bool_decide (0 <= r) then board rm !! Z.to_nat r else None) with
            | Some cells =>
                Returned tt
                  (with_wire
                     (wire rm ++ broadcast (cellUpdate (JNum r) (JNum c)
                                              (element cells (JNum c))) (clients rm))
                     rm)
            | None => Thrown TypeError rm
            end).
  { unfold sendCellUpdate. unfold bind at 1. rewrite board_at_run, element_num.
    destruct (if bool_decide (0 <= r) then board rm !! Z.to_nat r else None); reflexivity. }
  rewrite Hrun. clear Hrun. repeat split.
  - intros Hr. rewrite bool_decide_eq_true_2 by lia.
    destruct (board rm !! Z.to_nat r) as [cells|] eqn:Hcells.
    + rewrite element_num. unfold cell_at.
      replace (0 <=? r) with true by (symmetry; apply Z.leb_le; lia).
      rewrite Hcells. simpl.
      destruct (bool_decide (0 <= c)) eqn:Hc.
      * apply bool_decide_eq_true_1 in Hc.
        replace (0 <=? c) with true by (symmetry; apply Z.leb_le; lia). reflexivity.
      * apply bool_decide_eq_false_1 in Hc.
        replace (0 <=? c) with false by (symmetry; apply Z.leb_gt; lia). reflexivity.
    + apply lookup_ge_None in Hcells. lia.
  - intros Hr. destruct (bool_decide (0 <= r)) eqn:Hpos; [|reflexivity].
    apply bool_decide_eq_true_1 in Hpos.
    rewrite (proj2 (lookup_ge_None (board rm) (Z.to_nat r))) by lia. reflexivity.
  - intros Hc. destruct (cell_at (board rm) r c) eqn:Hcell; [|reflexivity].
    exfalso. apply Hc. apply (goals_fixed_in_bounds _ r c Hg). rewrite Hcell. eauto.
Qed.

(** ** A leave followed by the close of its socket *)

(** X14: when a leave is followed by the close event of the same socket the
    room sends two notices: "<nickname> has left." to the sockets open at
    the leave, the leaver included, and then the plain "leave" to the
    others only.  The board is untouched and the socket is gone from the
    clients. *)
Theorem leave_then_close_sends_two_notices ws message identity payload rm :
  decodes message "leave" identity payload ->
  let others := List.filter (fun client => negb (sock client =? ws)%nat) (clients rm) in
  exists rm1 rm2,
    on_message ws message rm = Returned tt rm1 /\
    on_close ws rm1 = Returned tt rm2 /\
    board rm2 = board rm /\
    clients rm2 = others /\
    wire rm2 =
      wire rm
        ++ broadcast (chat (JStr (nickname identity +:+ " has left."))) (clients rm)
        ++ broadcast (chat (JStr "leave")) others.
Proof.
  intros Hd others.
  destruct (on_message_decoded _ _ ws _ _ _ _ rm Hd) as (action & _ & Hn & Hp & Hdis & ->).
  rewrite Hdis. cbn [String.eqb Ascii.eqb Bool.eqb]. rewrite case_leave_run.
  cbn [room_after]. eexists. eexists. split; [reflexivity|]. split; [reflexivity|].
  cbn [with_clients with_wire board clients wire].
  rewrite filter_others_closing, <- app_assoc. repeat split.
Qed.

End More.

(** ** The same on concrete frames *)

Lemma marked_reachable : reachable JSONText.JSON_parse Demo.verifyRoomToken Demo.marked.
Proof. exact (reachable_event _ _ _ (Message 1 Demo.mark_a_00) lobby_reachable). Qed.

Lemma blue_not_on_red : "blue" ∉ colors (mkCell "Collect 5 things" ["red"]).
Proof. simpl. intros H. apply list_elem_of_singleton in H. discriminate. Qed.

Lemma mark_pushes_color_and_broadcasts_witness :
  exists rm',
    Demo.on_message 2 Demo.mark_b_00 Demo.marked = Returned tt rm' /\
    cell_at (board rm') 0 0 = Some (mkCell "Collect 5 things" ["red"; "blue"]) /\
    wire rm' =
      wire Demo.marked
        ++ [ (1%nat, cellUpdate (JNum 0) (JNum 0)
                       (Some (mkCell "Collect 5 things" ["red"; "blue"])));
             (2%nat, cellUpdate (JNum 0) (JNum 0)
                       (Some (mkCell "Collect 5 things" ["red"; "blue"])));
             (1%nat, chat (JStr "bob is marking (0,0)"));
             (2%nat, chat (JStr "bob is marking (0,0)")) ].
Proof.
  destruct (mark_pushes_color_and_broadcasts JSONText.JSON_parse Demo.verifyRoomToken
              2 Demo.mark_b_00 (mkIdentity "bob" "blue") 0 0
              (mkCell "Collect 5 things" ["red"]) Demo.marked)
    as (rm' & Hrun & Hcell & _ & _ & Hwire).
  - exists (JObj [("row", JNum 0); ("col", JNum 0)]). repeat split; reflexivity.
  - reflexivity.
  - exact blue_not_on_red.
  - exists rm'. split; [exact Hrun|]. split; [exact Hcell|exact Hwire].
Defined.


Lemma unknown_action_does_nothing_witness :
  Demo.on_message 1 Demo.dance_a Demo.marked = Returned tt Demo.marked.
Proof.
  eapply (unknown_action_does_nothing JSONText.JSON_parse Demo.verifyRoomToken
            1 Demo.dance_a _ (mkIdentity "ann" "red") Demo.marked).
  - reflexivity.
  - reflexivity.
  - intros kind [= <-] Hin.
    repeat (apply elem_of_cons in Hin as [Hin | Hin]; [discriminate|]).
    apply elem_of_nil in Hin. exact Hin.
Defined.

Lemma board_changes_only_by_authenticated_marks_witness :
  board Demo.marked ≠ board Demo.lobby /\
  exists ws message action identity,
    Message 1 Demo.mark_a_00 = Message ws message /\
    JSONText.JSON_parse message = Some action /\
    Demo.verifyRoomToken (prop action "authToken") = Some identity /\
    (prop action "action" = JStr "mark" \/ prop action "action" = JStr "unmark").
Proof.
  assert (Hchanged : board Demo.marked ≠ board Demo.lobby)
    by (intros H; vm_compute in H; discriminate H).
  split; [exact Hchanged|].
  destruct (board_changes_only_by_authenticated_marks
              JSONText.JSON_parse Demo.verifyRoomToken
              (Message 1 Demo.mark_a_00) Demo.lobby Hchanged)
    as (ws & message & action & identity & Hev & Hparse & Hv & Hkind & _).
  exists ws, message, action, identity. repeat split; assumption.
Defined.

Lemma colors_on_board_are_authenticated_witness :
  exists token identity,
    Demo.verifyRoomToken token = Some identity /\ color identity = "red".
Proof.
  apply (colors_on_board_are_authenticated JSONText.JSON_parse Demo.verifyRoomToken
           Demo.marked marked_reachable 0 0 (mkCell "Collect 5 things" ["red"])).
  - reflexivity.
  - simpl. apply list_elem_of_here.
Defined.

Lemma goals_and_shape_never_change_witness :
  goal <$> cell_at (board Demo.marked) 0 0 = Some "Collect 5 things" /\
  ~ is_Some (cell_at (board Demo.marked) 5 0).
Proof.
  pose proof (goals_and_shape_never_change JSONText.JSON_parse Demo.verifyRoomToken
                Demo.marked marked_reachable) as Hkept.
  split.
  - rewrite (proj2 (Hkept 0 0)). reflexivity.
  - intros Hsome. apply (proj1 (Hkept 5 0)) in Hsome. vm_compute in Hsome.
    destruct Hsome as [[_ H] _]. discriminate H.
Defined.

Lemma message_changes_no_other_socket_witness :
  clients (room_after (Demo.on_message 1 Demo.leave_a Demo.lobby)) !! 1%nat
    = Some (mkWebSocket 2 OPEN).
Proof.
  apply (proj2 (message_changes_no_other_socket JSONText.JSON_parse Demo.verifyRoomToken
                  1 Demo.leave_a Demo.lobby)).
  - reflexivity.
  - simpl. lia.
Defined.

Lemma unmark_undoes_mark_witness :
  exists rm1 rm2,
    Demo.on_message 2 Demo.mark_b_00 Demo.marked = Returned tt rm1 /\
    Demo.on_message 2 Demo.unmark_b_00 rm1 = Returned tt rm2 /\
    board rm2 = board Demo.marked.
Proof.
  destruct (unmark_undoes_mark JSONText.JSON_parse Demo.verifyRoomToken
              2 2 Demo.mark_b_00 Demo.unmark_b_00 (mkIdentity "bob" "blue") 0 0
              (mkCell "Collect 5 things" ["red"]) Demo.marked)
    as (rm1 & rm2 & E1 & E2 & _ & Hback).
  - exists (JObj [("row", JNum 0); ("col", JNum 0)]). repeat split; reflexivity.
  - exists (JObj [("row", JNum 0); ("col", JNum 0)]). repeat split; reflexivity.
  - reflexivity.
  - exists rm1, rm2. split; [exact E1|]. split; [exact E2|]. exact (Hback blue_not_on_red).
Defined.

Lemma second_unmark_only_rebroadcasts_witness :
  exists rm1 rm2,
    Demo.on_message 1 Demo.unmark_a_00 Demo.marked = Returned tt rm1 /\
    Demo.on_message 1 Demo.unmark_a_00 rm1 = Returned tt rm2 /\
    board rm2 = board rm1 /\
    wire rm2 =
      wire rm1
        ++ [ (1%nat, cellUpdate (JNum 0) (JNum 0) (Some (mkCell "Collect 5 things" [])));
             (2%nat, cellUpdate (JNum 0) (JNum 0) (Some (mkCell "Collect 5 things" [])));
             (1%nat, chat (JStr "ann is unmarking (0,0)"));
             (2%nat, chat (JStr "ann is unmarking (0,0)")) ].
Proof.
  apply (second_unmark_only_rebroadcasts JSONText.JSON_parse Demo.verifyRoomToken
           1 1 Demo.unmark_a_00 (mkIdentity "ann" "red") 0 0
           (mkCell "Collect 5 things" ["red"]) Demo.marked).
  - exists (JObj [("row", JNum 0); ("col", JNum 0)]). repeat split; reflexivity.
  - reflexivity.
Defined.

Lemma join_after_mark_sees_the_mark_witness :
  exists rm1 rm2 synced cell',
    Demo.on_message 1 Demo.mark_a_00 Demo.lobby = Returned tt rm1 /\
    Demo.on_message 2 Demo.join_b rm1 = Returned tt rm2 /\
    (2%nat, syncBoard synced) ∈ wire rm2 /\
    synced = board rm2 /\
    cell_at synced 0 0 = Some cell' /\
    "red" ∈ colors cell'.
Proof.
  apply (join_after_mark_sees_the_mark JSONText.JSON_parse Demo.verifyRoomToken
           1 2 Demo.mark_a_00 Demo.join_b (mkIdentity "ann" "red") (mkIdentity "bob" "blue")
           JUndefined 0 0 (mkCell "Collect 5 things" []) Demo.lobby).
  - exists (JObj [("row", JNum 0); ("col", JNum 0)]). repeat split; reflexivity.
  - repeat split; reflexivity.
  - reflexivity.
Defined.

Lemma null_coordinates_are_dropped_witness :
  prop (JObj [("row", JNull); ("col", JNum 0)]) "row" = JNull /\
  Demo.on_message 1 Demo.mark_a_null Demo.marked = Returned tt Demo.marked.
Proof.
  split; [reflexivity|].
  apply (proj1 (null_coordinates_are_dropped JSONText.JSON_parse Demo.verifyRoomToken
                  1 Demo.mark_a_null "mark" (mkIdentity "ann" "red")
                  (JObj [("row", JNull); ("col", JNum 0)]) Demo.marked
                  (or_introl eq_refl)
                  (conj eq_refl (conj eq_refl eq_refl))
                  (or_introl eq_refl))).
Defined.

Lemma mark_addresses_cell_by_key_text_witness :
  exists rm',
    Demo.on_message 2 Demo.mark_b_keys Demo.marked = Returned tt rm' /\
    cell_at (board rm') 0 0 = Some (mkCell "Collect 5 things" ["red"; "blue"]) /\
    wire rm' =
      wire Demo.marked
        ++ [ (1%nat, cellUpdate (JStr "0") (JArr [JNum 0])
                       (Some (mkCell "Collect 5 things" ["red"; "blue"])));
             (2%nat, cellUpdate (JStr "0") (JArr [JNum 0])
                       (Some (mkCell "Collect 5 things" ["red"; "blue"])));
             (1%nat, chat (JStr "bob is marking (0,0)"));
             (2%nat, chat (JStr "bob is marking (0,0)")) ].
Proof.
  apply (mark_addresses_cell_by_key_text JSONText.JSON_parse Demo.verifyRoomToken
           2 Demo.mark_b_keys (mkIdentity "bob" "blue")
           (JObj [("row", JStr "0"); ("col", JArr [JNum 0])]) 0 0
           (mkCell "Collect 5 things" ["red"]) Demo.marked).
  - repeat split; reflexivity.
  - reflexivity.
  - reflexivity.
  - reflexivity.
  - exact blue_not_on_red.
Defined.

Lemma sendCellUpdate_checks_only_the_row_witness :
  sendCellUpdate (JNum 0) (JNum 7) Demo.marked =
    Returned tt
      (with_wire
         (wire Demo.marked
            ++ [ (1%nat, cellUpdate (JNum 0) (JNum 7) None);
                 (2%nat, cellUpdate (JNum 0) (JNum 7) None) ])
         Demo.marked) /\
  sendCellUpdate (JNum 7) (JNum 0) Demo.marked = Thrown TypeError Demo.marked.
Proof.
  split.
  - apply (proj1 (sendCellUpdate_checks_only_the_row 0 7 Demo.marked eq_refl)).
    vm_compute. split; [discriminate|reflexivity].
  - apply (proj1 (proj2 (sendCellUpdate_checks_only_the_row 7 0 Demo.marked eq_refl))).
    vm_compute. intros [_ H]. discriminate H.
Defined.

Lemma leave_then_close_sends_two_notices_witness :
  exists rm1 rm2,
    Demo.on_message 1 Demo.leave_a Demo.lobby = Returned tt rm1 /\
    on_close 1 rm1 = Returned tt rm2 /\
    board rm2 = board Demo.lobby /\
    clients rm2 = [mkWebSocket 2 OPEN] /\
    wire rm2 =
      wire Demo.lobby
        ++ [(1%nat, chat (JStr "ann has left.")); (2%nat, chat (JStr "ann has left."))]
        ++ [(2%nat, chat (JStr "leave"))].
Proof.
  apply (leave_then_close_sends_two_notices JSONText.JSON_parse Demo.verifyRoomToken
           1 Demo.leave_a (mkIdentity "ann" "red") JUndefined Demo.lobby).
  repeat split; reflexivity.
Defined.
